(** * Auto-healing locator resolution and visual comparison

    A shallow embedding of the locator-healing resolver
    ([AutoHealing], the [getWithHealing] command) and of the visual
    comparison path ([compareImages], [compareSnapshot],
    [VisualTesting.performImageComparison]) of the Cypress automation
    framework, with the properties its specification states about them. *)

From Stdlib Require Import PrimFloat.
From Stdlib Require Import ZArith QArith Qpower Lqa List String Ascii Lia Sorted.
From Stdlib Require Import Permutation.
From stdpp Require Import base option gmap.
Import ListNotations.
Open Scope Z_scope.

(** ** JavaScript strings

    A JavaScript string is a sequence of UTF-16 code units.  Regular
    expressions without the [u] flag, [substring], [charAt], [length]
    and [includes] all work on code units, so the model is a list of
    code-unit numbers. *)

Module Js.

Abbreviation jsstring := (list N).

(** An ASCII literal of the source as a JavaScript string. *)
Definition js (s : string) : jsstring :=
  List.map N_of_ascii (list_ascii_of_string s).

Definition char (s : string) : N :=
  match s with
  | String a _ => N_of_ascii a
  | EmptyString => 0%N
  end.

Definition in_range (lo hi c : N) : bool := ((lo <=? c) && (c <=? hi))%N.

(** The class [\s]: WhiteSpace and LineTerminator code units. *)
Definition is_space (c : N) : bool :=
  in_range 9 13 c || (c =? 32)%N || (c =? 160)%N || (c =? 5760)%N
  || in_range 8192 8202 c || (c =? 8232)%N || (c =? 8233)%N
  || (c =? 8239)%N || (c =? 8287)%N || (c =? 12288)%N || (c =? 65279)%N.

Definition is_upper (c : N) : bool := in_range 65 90 c.
Definition is_lower (c : N) : bool := in_range 97 122 c.
Definition is_digit (c : N) : bool := in_range 48 57 c.

(** The class [[a-zA-Z0-9]]. *)
Definition is_alnum (c : N) : bool := is_lower c || is_upper c || is_digit c.

(** The class [\w]. *)
Definition is_word (c : N) : bool := is_alnum c || (c =? 95)%N.

Fixpoint take_while (p : N -> bool) (s : jsstring) : jsstring :=
  match s with
  | c :: rest => if p c then c :: take_while p rest else []
  | [] => []
  end.

Fixpoint drop_while (p : N -> bool) (s : jsstring) : jsstring :=
  match s with
  | c :: rest => if p c then drop_while p rest else s
  | [] => []
  end.

Definition is_empty (s : jsstring) : bool :=
  match s with [] => true | _ => false end.

(** Truthiness of a string value: every string but the empty one. *)
Definition truthy (s : jsstring) : bool := negb (is_empty s).

Fixpoint eqb (a b : jsstring) : bool :=
  match a, b with
  | [], [] => true
  | x :: a', y :: b' => (x =? y)%N && eqb a' b'
  | _, _ => false
  end.

(** [strip_prefix p s] is the rest of [s] after the prefix [p]. *)
Fixpoint strip_prefix (p s : jsstring) : option jsstring :=
  match p, s with
  | [], _ => Some s
  | x :: p', y :: s' => if (x =? y)%N then strip_prefix p' s' else None
  | _ :: _, [] => None
  end.

Definition startsWith (s p : jsstring) : bool :=
  match strip_prefix p s with Some _ => true | None => false end.

(** [s.includes(p)]. *)
Fixpoint includes (s p : jsstring) : bool :=
  startsWith s p ||
  match s with
  | _ :: rest => includes rest p
  | [] => false
  end.

(** [s.replace(/cls/g, ' $&')] and friends: a rewrite of every code unit. *)
Definition replace_each (f : N -> jsstring) (s : jsstring) : jsstring :=
  List.flat_map f s.

(** [s.replace(/[#.]/, '')]: the first code unit of the class is dropped. *)
Fixpoint remove_first (p : N -> bool) (s : jsstring) : jsstring :=
  match s with
  | c :: rest => if p c then rest else c :: remove_first p rest
  | [] => []
  end.

Definition trim (s : jsstring) : jsstring :=
  List.rev (drop_while is_space (List.rev (drop_while is_space s))).

Definition length (s : jsstring) : Z := Z.of_nat (List.length s).

(** [s.substring(0, n)] for an integer [n]. *)
Definition substring0 (n : Z) (s : jsstring) : jsstring :=
  List.firstn (Z.to_nat n) s.

(** [s.charAt(0)] and [s.slice(1)]. *)
Definition charAt0 (s : jsstring) : jsstring := List.firstn 1 s.
Definition slice1 (s : jsstring) : jsstring := List.skipn 1 s.

(** [s.padEnd(n)]: spaces appended up to length [n]. *)
Definition padEnd (n : nat) (s : jsstring) : jsstring :=
  s ++ List.repeat 32%N (n - List.length s).

(** Decimal digits of a positive number, least significant first, with
    as much fuel as the number has bits. *)
Fixpoint digits_rev (fuel : nat) (n : N) : list N :=
  match fuel with
  | O => []
  | S fuel' =>
      if (n <? 10)%N then [(48 + n)%N]
      else (48 + n mod 10)%N :: digits_rev fuel' (n / 10)%N
  end.

(** [String(n)] for an integer [n]: its decimal digits, as the
    conversion gives them for every integer below 10^21 in magnitude. *)
Definition of_Z (n : Z) : jsstring :=
  let d := List.rev (digits_rev (S (N.to_nat (N.log2 (Z.to_N (Z.abs n))))) (Z.to_N (Z.abs n))) in
  if n <? 0 then char "-" :: d else d.

End Js.

Import Js.

(** The double quote, which an ASCII literal of this file cannot hold. *)
Definition dq : jsstring := [34%N].

(** ** Types of the framework ([types/index.ts]) *)

Inductive Sensitivity := low | medium | high.

(** [maxRetries] is a count: an integer. *)
Record AutoHealingConfig := {
  enabled : bool;
  sensitivity : Sensitivity;
  maxRetries : Z;
  reportPath : jsstring
}.

Inductive HealingAction := locator_updated | element_found | healing_failed.

(** The element-type hint.  The source declares it a string; the maps of
    [getSemanticStrategy] and [getRoleStrategy] know the six values of
    [PageElement.type], which are the values the resolver's contract
    admits, so the hint is modelled as one of them or absent. *)
Inductive ElementType := button | input | link | select | text | container.

Definition elementTypeName (t : ElementType) : jsstring :=
  match t with
  | button => js "button"
  | input => js "input"
  | link => js "link"
  | select => js "select"
  | text => js "text"
  | container => js "container"
  end.

Record HealingLog := {
  timestamp : jsstring;
  testFile : jsstring;
  oldSelector : jsstring;
  newSelector : jsstring;
  action : HealingAction;
  elementType : jsstring
}.

Record HealingStrategy := {
  name : jsstring;
  priority : Z;
  selectors : list jsstring
}.

(** What the host supplies: the two locale-free case mappings of the
    string library; the number of elements [$body.find(selector)] yields
    on the body handed to the k-th attempt, for a selector the selector
    engine parses; the message of the error the engine throws on a
    selector it cannot parse ([None] for one it parses); the clock and
    the random source read during the k-th attempt; and the running
    spec file. *)
Record Host := {
  toLowerCase : jsstring -> jsstring;
  toUpperCase : jsstring -> jsstring;
  bodyFind : Z -> jsstring -> nat;
  findError : jsstring -> option jsstring;
  now : Z -> jsstring;
  random : Z -> Q;
  specRelative : jsstring
}.

(** ** Strategy generation ([AutoHealing], private helpers) *)

Module AutoHealing.

(** One attempt of a regular expression [m([^...]+)] at every position,
    leftmost first: the marker [m], then the longest non-empty run of
    code units outside the excluded class. *)
Fixpoint match_marker_run (marker : N) (excluded : N -> bool) (s : jsstring)
  : option jsstring :=
  match s with
  | [] => None
  | c :: rest =>
      let run := take_while (fun x => negb (excluded x)) rest in
      if (c =? marker)%N && truthy run then Some run
      else match_marker_run marker excluded rest
  end.

Definition is_quote (c : N) : bool := (c =? 34)%N.

(** A quoted value, the longest non-empty run free of double quotes,
    followed by the closing text. *)
Definition quoted_value (closing s : jsstring) : option jsstring :=
  let value := take_while (fun x => negb (is_quote x)) s in
  if truthy value && startsWith (drop_while (fun x => negb (is_quote x)) s) closing
  then Some value else None.

(** The attribute pattern anchored at the head of [s]: an opening
    bracket, a non-empty run of word characters and dashes, an equals
    sign and a quoted value closed by a quote and a bracket. *)
Definition attr_at (s : jsstring) : option jsstring :=
  match s with
  | c :: rest =>
      let is_name x := is_word x || (x =? 45)%N in
      if (c =? 91)%N && truthy (take_while is_name rest) then
        match strip_prefix (js "=" ++ dq) (drop_while is_name rest) with
        | Some after => quoted_value (dq ++ js "]") after
        | None => None
        end
      else None
  | [] => None
  end.

(** The text pattern anchored at the head of [s]: [:contains(], a
    quoted value, and the closing parenthesis. *)
Definition contains_at (s : jsstring) : option jsstring :=
  match strip_prefix (js ":contains(" ++ dq) s with
  | Some after => quoted_value (dq ++ js ")") after
  | None => None
  end.

(** The leftmost position at which an anchored pattern matches. *)
Fixpoint first_match (at_head : jsstring -> option jsstring) (s : jsstring)
  : option jsstring :=
  match at_head s with
  | Some v => Some v
  | None =>
      match s with
      | _ :: rest => first_match at_head rest
      | [] => None
      end
  end.

Definition extractIdentifier (selector : jsstring) : option jsstring :=
  (* Extract ID *)
  match match_marker_run 35 (fun c => (c =? 46)%N || is_space c || (c =? 91)%N) selector with
  | Some id => Some id
  | None =>
  (* Extract class *)
  match match_marker_run 46 (fun c => (c =? 35)%N || is_space c || (c =? 91)%N) selector with
  | Some cls => Some cls
  | None =>
  (* Extract attribute value *)
  match first_match attr_at selector with
  | Some v => Some v
  | None =>
  (* Extract contains text *)
  first_match contains_at selector
  end end end.

Definition capitalizeFirst (h : Host) (str : jsstring) : jsstring :=
  toUpperCase h (charAt0 str) ++ slice1 str.

(** The selector [[attr op value]], the value in double quotes. *)
Definition attrSelector (attr op value : jsstring) : jsstring :=
  js "[" ++ attr ++ op ++ dq ++ value ++ dq ++ js "]".

Definition role (r : string) : jsstring := attrSelector (js "role") (js "=") (js r).

Definition getAttributeStrategy (originalSelector : jsstring) : HealingStrategy :=
  let selectors :=
    match extractIdentifier originalSelector with
    | Some identifier =>
        let attributes :=
          [js "id"; js "name"; js "data-testid"; js "data-cy"; js "data-test";
           js "class"; js "aria-label"] in
        List.flat_map (fun attr =>
          [attrSelector attr (js "=") identifier;
           attrSelector attr (js "*=") identifier;
           attrSelector attr (js "^=") identifier;
           attrSelector attr (js "$=") identifier]) attributes
    | None => []
    end in
  {| name := js "Attribute Strategy"; priority := 1; selectors := selectors |}.

Definition semanticMap (t : ElementType) : list jsstring :=
  match t with
  | button => [js "button"; role "button";
               js "input" ++ attrSelector (js "type") (js "=") (js "submit");
               js "input" ++ attrSelector (js "type") (js "=") (js "button")]
  | input => [js "input"; role "textbox"; js "textarea";
              attrSelector (js "contenteditable") (js "=") (js "true")]
  | link => [js "a"; role "link"]
  | select => [js "select"; role "combobox"; role "listbox"]
  | text => [js "span"; js "div"; js "p"; role "text"; js "label"]
  | container => [js "div"; js "section"; js "article"; role "main"; role "region"]
  end.

Definition getSemanticStrategy (elementType : ElementType) : HealingStrategy :=
  {| name := js "Semantic Strategy"; priority := 2;
     selectors := semanticMap elementType |}.

Definition containsSelector (prefix value : jsstring) : jsstring :=
  prefix ++ js ":contains(" ++ dq ++ value ++ dq ++ js ")".

Definition getTextStrategy (h : Host) (originalSelector : jsstring) : HealingStrategy :=
  let selectors :=
    match extractIdentifier originalSelector with
    | Some identifier =>
        (* Convert camelCase/kebab-case to readable text *)
        let readableText :=
          toLowerCase h
            (trim
              (replace_each (fun c => if (c =? 45)%N || (c =? 95)%N then [32%N] else [c])
                (replace_each (fun c => if is_upper c then [32%N; c] else [c])
                   identifier))) in
        let commonVariations :=
          [readableText; capitalizeFirst h readableText;
           toUpperCase h readableText; identifier] in
        [containsSelector [] readableText; containsSelector [] identifier]
        ++ List.flat_map (fun variation =>
             [containsSelector (js "button") variation;
              containsSelector (js "a") variation;
              attrSelector (js "aria-label") (js "=") variation;
              attrSelector (js "title") (js "=") variation]) commonVariations
    | None => []
    end in
  {| name := js "Text Strategy"; priority := 3; selectors := selectors |}.

Definition getStructuralStrategy (config : AutoHealingConfig)
    (originalSelector : jsstring) : HealingStrategy :=
  let selectors :=
    (if includes originalSelector (js "form")
     then [js "form input"; js "form button"; js "form select"; js "form textarea"]
     else [])
    ++ (if includes originalSelector (js "nav") || includes originalSelector (js "menu")
        then [js "nav a"; js "nav button"; role "navigation" ++ js " a"; role "menuitem"]
        else [])
    ++ (if includes originalSelector (js "table")
        then [js "table td"; js "table th"; js "table button"; js "table a"]
        else [])
    (* Position-based selectors (use with caution) *)
    ++ (match sensitivity config with
        | high => [js ":first"; js ":last"; js ":nth-child(1)"; js ":nth-child(2)"]
        | _ => []
        end) in
  {| name := js "Structural Strategy"; priority := 4; selectors := selectors |}.

Definition roleMap (t : ElementType) : list jsstring :=
  match t with
  | button => [role "button"]
  | input => [role "textbox"; role "searchbox"]
  | link => [role "link"]
  | select => [role "combobox"; role "listbox"]
  | text => [role "text"; role "heading"]
  | container => [role "main"; role "region"; role "section"]
  end.

Definition getRoleStrategy (elementType : option ElementType) : HealingStrategy :=
  let selectors :=
    (match elementType with Some t => roleMap t | None => [] end)
    (* Common ARIA roles *)
    ++ [role "banner"; role "navigation"; role "main"; role "complementary";
        role "contentinfo"] in
  {| name := js "Role Strategy"; priority := 5; selectors := selectors |}.

Definition getFuzzyMatchingStrategy (originalSelector : jsstring) : HealingStrategy :=
  let selectors :=
    match extractIdentifier originalSelector with
    | Some identifier =>
        if Js.length identifier >? 3 then
          (* Try partial matches *)
          let partialId := substring0 (Js.length identifier / 2) identifier in
          (* Try without special characters *)
          let cleanId := List.filter is_alnum identifier in
          [attrSelector (js "id") (js "*=") partialId;
           attrSelector (js "class") (js "*=") partialId;
           attrSelector (js "data-testid") (js "*=") partialId]
          ++ (if negb (Js.eqb cleanId identifier)
              then [attrSelector (js "id") (js "*=") cleanId;
                    attrSelector (js "class") (js "*=") cleanId]
              else [])
        else []
    | None => []
    end in
  {| name := js "Fuzzy Matching Strategy"; priority := 6; selectors := selectors |}.

Definition getSensitivityMaxPriority (config : AutoHealingConfig) : Z :=
  match sensitivity config with
  | low => 2
  | medium => 4
  | high => 6
  end.

(** [Array.prototype.sort] is stable: insertion in front of the first
    element that does not compare lower keeps equal elements in order. *)
Fixpoint insert_by_priority (s : HealingStrategy) (l : list HealingStrategy)
  : list HealingStrategy :=
  match l with
  | [] => [s]
  | x :: rest =>
      if priority s - priority x <=? 0 then s :: l
      else x :: insert_by_priority s rest
  end.

Definition sort_by_priority (l : list HealingStrategy) : list HealingStrategy :=
  List.fold_right insert_by_priority [] l.

Definition filterStrategiesBySensitivity (config : AutoHealingConfig)
    (strategies : list HealingStrategy) : list HealingStrategy :=
  let maxPriority := getSensitivityMaxPriority config in
  sort_by_priority
    (List.filter (fun strategy => priority strategy <=? maxPriority) strategies).

Definition getHealingStrategies (h : Host) (config : AutoHealingConfig)
    (originalSelector : jsstring) (elementType : option ElementType)
  : list HealingStrategy :=
  let strategies :=
    (* Strategy 1: Alternative attribute selectors *)
    [getAttributeStrategy originalSelector]
    (* Strategy 2: Semantic selectors based on element type *)
    ++ (match elementType with Some t => [getSemanticStrategy t] | None => [] end)
    (* Strategy 3 to 6: text, structure, role, fuzzy matching *)
    ++ [getTextStrategy h originalSelector;
        getStructuralStrategy config originalSelector;
        getRoleStrategy elementType;
        getFuzzyMatchingStrategy originalSelector] in
  (* Filter strategies based on sensitivity level *)
  filterStrategiesBySensitivity config strategies.

End AutoHealing.

(** ** The command queue

    The resolver runs inside the runner's single-threaded command
    queue.  A run is modelled by the in-memory healing log of the
    [AutoHealing] instance and the sequence of effects in program order:
    the commands handed to the queue, the synchronous probes
    [$body.find(selector)], and the calls of the strategy generator. *)

Inductive Effect :=
| CyGetBody                                   (* cy.get('body') *)
| BodyFind (selector : jsstring)              (* $body.find(selector) *)
| CyGet (selector : jsstring)                 (* cy.get(selector) *)
| CyLog (message : jsstring)                  (* cy.log(message) *)
| CyTaskLog (message : jsstring)              (* cy.task('log', message) *)
| CyTaskUpdateLocator (selector newSelector testFile : jsstring)
| CyWait (ms : Q)                             (* cy.wait(ms) *)
| Generate (selector : jsstring).             (* the generator is called *)

Record CyState := {
  healingLogs : list HealingLog;
  effects : list Effect
}.

Definition Cy (A : Type) : Type := CyState -> A * CyState.

#[global] Instance cy_ret : MRet Cy := fun A a s => (a, s).

#[global] Instance cy_bind : MBind Cy :=
  fun A B k m s => let (a, s') := m s in k a s'.

Definition ret {A} (a : A) : Cy A := mret a.

Definition emit (e : Effect) : Cy unit :=
  fun s => (tt, {| healingLogs := healingLogs s; effects := effects s ++ [e] |}).

Definition pushLog (l : HealingLog) : Cy unit :=
  fun s => (tt, {| healingLogs := healingLogs s ++ [l]; effects := effects s |}).

(** What a resolution hands back: the chainable [cy.get(selector)], or
    a thrown error. *)
Inductive Outcome :=
| Yield (selector : jsstring)
| Throw (message : jsstring).

(** What a probe of a generated selector comes to: the number of
    elements found, or the error of the selector engine. *)
Inductive Probe :=
| Count (n : nat)
| Rejected (message : jsstring).

(** What a probing loop comes to: the first match, no match, or the
    error a probe threw, which ends the loop. *)
Inductive Search (A : Type) :=
| Hit (a : A)
| Miss
| Raised (message : jsstring).
Arguments Hit {A} a.
Arguments Miss {A}.
Arguments Raised {A} message.

Module Resolver.
Import AutoHealing.

Definition Qmin (a b : Q) : Q := if Qle_bool a b then a else b.

(** [getRetryDelay], with [r] the value [Math.random()] returns.  The
    delay is the exact value of the expression; the doubles of the
    source round each product and the sum to the nearest double. *)
Definition getRetryDelay (attempt : Z) (r : Q) : Q :=
  (* Exponential backoff with jitter *)
  let baseDelay := 1000%Q in
  let maxDelay := 5000%Q in
  let delay := Qmin (baseDelay * Qpower 2 (attempt - 1)) maxDelay in
  let jitter := (r * (1 # 10) * delay)%Q in
  (delay + jitter)%Q.

Definition logHealingAction (log : HealingLog) : Cy unit :=
  pushLog log ;;
  (* Save to file via task *)
  emit (CyTaskUpdateLocator (oldSelector log) (newSelector log) (testFile log)).

Definition box (l fill r : N) : jsstring := [l] ++ List.repeat fill 66 ++ [r].
Definition boxed (inner : jsstring) : jsstring := [9553%N] ++ inner ++ [9553%N].
Definition nl : jsstring := [10%N].

(** The text [suggestSelectorUpdate] logs. *)
Definition suggestion (h : Host) (oldSelector newSelector strategy : jsstring)
  : jsstring :=
    nl ++ box 9556 9552 9559 ++ nl
    ++ boxed (js "                        AUTO-HEALING SUGGESTION                   ") ++ nl
    ++ box 9568 9552 9571 ++ nl
    ++ boxed (js " Original selector: " ++ padEnd 43 oldSelector ++ js " ") ++ nl
    ++ boxed (js " Working selector:  " ++ padEnd 43 newSelector ++ js " ") ++ nl
    ++ boxed (js " Strategy used:     " ++ padEnd 43 strategy ++ js " ") ++ nl
    ++ boxed (js " File:             " ++ padEnd 44 (specRelative h) ++ js " ") ++ nl
    ++ box 9568 9552 9571 ++ nl
    ++ boxed (js " Consider updating your test to use the working selector for      ") ++ nl
    ++ boxed (js " better reliability and performance.                              ") ++ nl
    ++ box 9562 9552 9565 ++ nl ++ js "    ".

Definition suggestSelectorUpdate (h : Host) (oldSelector newSelector strategy : jsstring)
  : Cy unit :=
  emit (CyTaskLog (suggestion h oldSelector newSelector strategy)).

(** [$body.find(originalSelector).length] on the body of attempt [k].
    The original selector is the one the test wrote, a selector the
    engine parses: the probe answers with a count. *)
Definition find (h : Host) (k : Z) (selector : jsstring) : Cy nat :=
  emit (BodyFind selector) ;; ret (bodyFind h k selector).

(** [$body.find(selector)] for a generated selector.  The generators
    paste the identifier between quotes and brackets as they find it,
    so a candidate need not be a selector at all; on one it cannot
    parse the engine throws. *)
Definition probe (h : Host) (k : Z) (selector : jsstring) : Cy Probe :=
  emit (BodyFind selector) ;;
  ret (match findError h selector with
       | Some message => Rejected message
       | None => Count (bodyFind h k selector)
       end).

(** The inner loop: the first selector of a strategy that matches.  An
    error thrown by a probe leaves the loop. *)
Fixpoint probeSelectors (h : Host) (k : Z) (sels : list jsstring)
  : Cy (Search jsstring) :=
  match sels with
  | [] => ret Miss
  | selector :: rest =>
      p ← probe h k selector;
      match p with
      | Rejected message => ret (Raised message)
      | Count n =>
          if (0 <? n)%nat then ret (Hit selector) else probeSelectors h k rest
      end
  end.

(** The outer loop: the first strategy with a matching selector. *)
Fixpoint probeStrategies (h : Host) (k : Z) (strategies : list HealingStrategy)
  : Cy (Search (HealingStrategy * jsstring)) :=
  match strategies with
  | [] => ret Miss
  | strategy :: rest =>
      r ← probeSelectors h k (selectors strategy);
      match r with
      | Hit selector => ret (Hit (strategy, selector))
      | Raised message => ret (Raised message)
      | Miss => probeStrategies h k rest
      end
  end.

Definition typeOrUnknown (elementType : option ElementType) : jsstring :=
  match elementType with Some t => elementTypeName t | None => js "unknown" end.

Definition failureMessage (originalSelector : jsstring) (maxRetries : Z) : jsstring :=
  js "Auto-healing failed: Element not found with selector " ++ dq
  ++ originalSelector ++ dq ++ js " after " ++ of_Z maxRetries
  ++ js " attempts using all available strategies".

(** The tail of [attemptFind]: all attempts failed. *)
Definition allAttemptsFailed (h : Host) (config : AutoHealingConfig)
    (originalSelector : jsstring) (elementType : option ElementType) (attempts : Z)
  : Cy (option Outcome) :=
  logHealingAction {|
    timestamp := now h attempts;
    testFile := specRelative h;
    oldSelector := originalSelector;
    newSelector := [];
    action := healing_failed;
    elementType := typeOrUnknown elementType |} ;;
  ret (Some (Throw (failureMessage originalSelector (maxRetries config)))).

(** [attemptFind], the closure of [findElement]; [attempts] is the
    counter before its increment.  The recursion of the source is
    bounded by [maxRetries]; [fuel] makes that bound structural, and
    [None] is the answer of a run that was given too little of it.  An
    error of the selector engine leaves the callback as it is thrown:
    nothing is logged and nothing retried. *)
Fixpoint attemptFind (h : Host) (config : AutoHealingConfig)
    (originalSelector : jsstring) (elementType : option ElementType)
    (fuel : nat) (attempts : Z) : Cy (option Outcome) :=
  match fuel with
  | O => ret None
  | S fuel' =>
      let attempts := attempts + 1 in
      emit CyGetBody ;;
      (* Try original selector first *)
      n ← find h attempts originalSelector;
      if (0 <? n)%nat then
        emit (CyGet originalSelector) ;; ret (Some (Yield originalSelector))
      (* If original fails and we haven't exceeded retries *)
      else if attempts <=? maxRetries config then
        emit (CyTaskLog (js "Auto-healing attempt " ++ of_Z attempts
                         ++ js " for selector: " ++ originalSelector)) ;;
        emit (Generate originalSelector) ;;
        let strategies := getHealingStrategies h config originalSelector elementType in
        r ← probeStrategies h attempts strategies;
        match r with
        | Raised message => ret (Some (Throw message))
        | Hit (strategy, selector) =>
            emit (CyTaskLog (js "Auto-healing success: Found element with "
                             ++ name strategy ++ js " strategy using selector: "
                             ++ selector)) ;;
            logHealingAction {|
              timestamp := now h attempts;
              testFile := specRelative h;
              oldSelector := originalSelector;
              newSelector := selector;
              action := element_found;
              elementType := typeOrUnknown elementType |} ;;
            (* Suggest selector update *)
            suggestSelectorUpdate h originalSelector selector (name strategy) ;;
            emit (CyGet selector) ;; ret (Some (Yield selector))
        | Miss =>
            (* If no strategy worked, wait and retry *)
            if attempts <? maxRetries config then
              emit (CyWait (getRetryDelay attempts (random h attempts))) ;;
              attemptFind h config originalSelector elementType fuel' attempts
            else allAttemptsFailed h config originalSelector elementType attempts
        end
      else allAttemptsFailed h config originalSelector elementType attempts
  end.

(** [AutoHealing.findElement] (the unused [context] argument is left
    out).  The fuel exceeds the number of attempts the guard on
    [maxRetries] allows. *)
Definition findElement (h : Host) (config : AutoHealingConfig)
    (originalSelector : jsstring) (elementType : option ElementType)
  : Cy (option Outcome) :=
  if negb (enabled config) then
    emit (CyGet originalSelector) ;; ret (Some (Yield originalSelector))
  else
    attemptFind h config originalSelector elementType
      (S (Z.to_nat (maxRetries config))) 0.

(** A plain DOM query, as the specification words the disabled mode:
    the chainable of the selector, and nothing else. *)
Definition plainQuery (selector : jsstring) : Cy (option Outcome) :=
  emit (CyGet selector) ;; ret (Some (Yield selector)).

End Resolver.

(** ** The [getWithHealing] command ([cypress/support/commands.ts]) *)

Module Commands.

(** Helper function to generate alternative selectors *)
Definition generateAlternativeSelectors (originalSelector : jsstring) : list jsstring :=
  let is_hash_or_dot c := ((c =? 35) || (c =? 46))%N in
  let stripped := remove_first is_hash_or_dot originalSelector in
  let attr := AutoHealing.attrSelector in
  (* If it's an ID selector, try class and attribute selectors *)
  (if startsWith originalSelector (js "#") then
     let id := slice1 originalSelector in
     [attr (js "id") (js "=") id; attr (js "id") (js "*=") id;
      attr (js "data-testid") (js "=") id; attr (js "data-cy") (js "=") id]
   else [])
  (* If it's a class selector, try attribute and tag selectors *)
  ++ (if startsWith originalSelector (js ".") then
        let className := slice1 originalSelector in
        [attr (js "class") (js "*=") className;
         attr (js "data-testid") (js "*=") className;
         attr (js "data-cy") (js "*=") className]
      else [])
  (* Try common test attributes *)
  ++ List.map (fun a => attr a (js "*=") stripped)
       [js "data-testid"; js "data-cy"; js "data-test"; js "aria-label";
        js "title"; js "name"]
  (* Try text-based selectors *)
  ++ [AutoHealing.containsSelector [] stripped].

Definition notFoundMessage (selector : jsstring) (maxRetries : Z) : jsstring :=
  js "Auto-healing failed: Element not found with selector " ++ dq
  ++ selector ++ dq ++ js " after " ++ of_Z maxRetries ++ js " attempts".

(** [tryGet], the closure of the command, bounded like [attemptFind];
    an error of the selector engine leaves it as it is thrown. *)
Fixpoint tryGet (h : Host) (maxRetries : Z) (selector : jsstring)
    (fuel : nat) (attempts : Z) : Cy (option Outcome) :=
  match fuel with
  | O => ret None
  | S fuel' =>
      let attempts := attempts + 1 in
      emit CyGetBody ;;
      (* Try original selector first *)
      n ← Resolver.find h attempts selector;
      if (0 <? n)%nat then emit (CyGet selector) ;; ret (Some (Yield selector))
      else if attempts <=? maxRetries then
        emit (CyLog (js "Auto-healing: Attempt " ++ of_Z attempts
                     ++ js " for selector: " ++ selector)) ;;
        emit (Generate selector) ;;
        let alternatives := generateAlternativeSelectors selector in
        r ← Resolver.probeSelectors h attempts alternatives;
        match r with
        | Raised message => ret (Some (Throw message))
        | Hit alternative =>
            emit (CyLog (js "Auto-healing: Found element with selector: "
                         ++ alternative)) ;;
            (* Log the healing action *)
            emit (CyTaskUpdateLocator selector alternative (specRelative h)) ;;
            emit (CyGet alternative) ;; ret (Some (Yield alternative))
        | Miss =>
            (* If no alternatives work, retry after a short wait *)
            emit (CyWait 1000) ;;
            tryGet h maxRetries selector fuel' attempts
        end
      else
        (* If all attempts failed, throw error *)
        ret (Some (Throw (notFoundMessage selector maxRetries)))
  end.

(** The command; [autoHealingConfig] is [Cypress.env('autoHealing')],
    which may be undefined. *)
Definition getWithHealing (h : Host) (autoHealingConfig : option AutoHealingConfig)
    (selector : jsstring) : Cy (option Outcome) :=
  match autoHealingConfig with
  | Some config =>
      if negb (enabled config) then
        emit (CyGet selector) ;; ret (Some (Yield selector))
      else
        let maxRetries := if maxRetries config =? 0 then 3 else maxRetries config in
        tryGet h maxRetries selector (S (Z.to_nat maxRetries)) 0
  | None => emit (CyGet selector) ;; ret (Some (Yield selector))
  end.

End Commands.

(** ** Visual comparison

    The [compareImages] task of [cypress.config.ts], the
    [compareSnapshot] command of [commands.ts] that calls it, and
    [VisualTesting.performImageComparison]. *)

Module Visual.

(** A count as the double that holds it.  The counts of pixels are
    integers far below 2^53, which doubles hold exactly. *)
Fixpoint float_of_pos (p : positive) : float :=
  match p with
  | xH => 1%float
  | xO q => (2 * float_of_pos q)%float
  | xI q => (2 * float_of_pos q + 1)%float
  end.

Definition float_of_Z (n : Z) : float :=
  match n with
  | Z0 => 0%float
  | Zpos p => float_of_pos p
  | Zneg p => (- float_of_pos p)%float
  end.

(** The threshold is a JavaScript number: a double. *)
Record VisualTestingConfig := {
  enabled : bool;
  threshold : float;
  baselineDir : jsstring;
  diffDir : jsstring;
  actualDir : jsstring
}.

(** A decoded PNG: [PNG.sync.read] yields its size and pixel data. *)
Record PNG := { width : Z; height : Z; data : list N }.

Inductive File :=
| PngFile (image : PNG)
| OtherFile (content : jsstring).

(** The files of the working directory, by path.  Directories are not
    modelled: whether a write of [fs.writeFileSync] goes through is
    for the host to say. *)
Abbreviation FS := (gmap jsstring File).

(** The object a comparison yields: [{passed, diffPixels, diffPath}],
    the path being optional, or the task's [{error}]. *)
Inductive VisualComparisonResult :=
| Compared (passed : bool) (diffPixels : Z) (diffPath : option jsstring)
| Errored (error : jsstring).

(** [result.passed] as a condition: undefined on an error object. *)
Definition passed (r : VisualComparisonResult) : bool :=
  match r with Compared p _ _ => p | Errored _ => false end.

Definition diffPixels (r : VisualComparisonResult) : option Z :=
  match r with Compared _ n _ => Some n | Errored _ => None end.

(** What Node, the image libraries and the runner supply: [pixelmatch]
    (the message of the error it throws, or the count of differing
    pixels and the diff data it fills in); [path.join] and
    [path.basename]; the messages of the errors [fs.readFileSync] and
    [PNG.sync.read] throw; the message of the error [fs.writeFileSync]
    throws on a path it cannot write, for want of the directory say
    ([None] where the write goes through); the file a screenshot leaves
    on disk; whether the Allure plugin is loaded; and the
    [visualTesting] settings of the configuration the task handlers
    close over. *)
Record NodeHost := {
  pixelmatch : list N -> list N -> Z -> Z -> float -> jsstring + Z * list N;
  pathJoin : jsstring -> jsstring -> jsstring;
  pathBasename : jsstring -> jsstring -> jsstring;
  readFileError : jsstring -> jsstring;
  pngReadError : jsstring;
  writeFileError : jsstring -> option jsstring;
  takeScreenshot : jsstring -> FS -> FS;
  allure : bool;
  taskConfig : VisualTestingConfig
}.

(** The names [setupNodeEvents] registers a task under.  The runner
    rejects a [cy.task] call of any other name. *)
Definition registeredTasks : list jsstring :=
  [js "writeAllureResults"; js "log"; js "updateLocator"; js "compareImages"].

Definition registered (task : jsstring) : bool :=
  List.existsb (Js.eqb task) registeredTasks.

Definition readPng (n : NodeHost) (fs : FS) (path : jsstring) : jsstring + PNG :=
  match fs !! path with
  | None => inl (readFileError n path)
  | Some (OtherFile _) => inl (pngReadError n)
  | Some (PngFile image) => inr image
  end.

(** Visual comparison task.  Its [try] block holds the two reads, the
    diff routine and the write of the diff image: whichever throws, the
    task answers with the error. *)
Definition compareImages (n : NodeHost) (config : VisualTestingConfig) (fs : FS)
    (baseline actual : jsstring) : VisualComparisonResult * FS :=
  match readPng n fs baseline with
  | inl message => (Errored message, fs)
  | inr baselineImage =>
  match readPng n fs actual with
  | inl message => (Errored message, fs)
  | inr actualImage =>
      let width := width baselineImage in
      let height := height baselineImage in
      match pixelmatch n (data baselineImage) (data actualImage) width height
              (threshold config) with
      | inl message => (Errored message, fs)
      | inr (numDiffPixels, diffData) =>
          let diffPath :=
            pathJoin n (diffDir config)
              (pathBasename n actual (js ".png") ++ js "-diff.png") in
          let diff := {| width := width; height := height; data := diffData |} in
          match writeFileError n diffPath with
          | Some message => (Errored message, fs)
          | None =>
              (Compared (numDiffPixels =? 0) numDiffPixels (Some diffPath),
               <[diffPath := PngFile diff]> fs)
          end
      end
  end end.

Inductive VEffect :=
| Log (message : jsstring)                        (* cy.log *)
| TaskLog (message : jsstring)                    (* cy.task('log', ...) *)
| AddTestLog (message level : jsstring)           (* cy.addTestLog *)
| Screenshot (name : jsstring)                    (* cy.screenshot *)
| ReadFile (path : jsstring)                      (* cy.readFile *)
| TaskCompareImages (baseline actual : jsstring)
| TaskCopyFile (source destination : jsstring)
| Attachment (title path : jsstring).             (* allure().attachment *)

Record VState := {
  fs : FS;
  testResults : list VisualComparisonResult;
  log : list VEffect
}.

Definition VCy (A : Type) : Type := VState -> A * VState.

#[global] Instance vcy_ret : MRet VCy := fun A a s => (a, s).

#[global] Instance vcy_bind : MBind VCy :=
  fun A B k m s => let (a, s') := m s in k a s'.

Definition vret {A} (a : A) : VCy A := mret a.

Definition vemit (e : VEffect) : VCy unit :=
  fun s => (tt, {| fs := fs s; testResults := testResults s; log := log s ++ [e] |}).

Definition pushResult (r : VisualComparisonResult) : VCy unit :=
  fun s => (tt, {| fs := fs s; testResults := testResults s ++ [r]; log := log s |}).

(** A task that works on the files: run the handler on the current
    files and keep the files it leaves. *)
Definition onFiles {A} (handler : FS -> A * FS) : VCy A :=
  fun s => let (a, fs') := handler (fs s) in
           (a, {| fs := fs'; testResults := testResults s; log := log s |}).

(** What [cy.readFile(path, 'base64')] yields, as a condition: the
    encoding of an empty file is the empty string, which is falsy, and
    that of any other file is not.  With no file at the path the
    command yields nothing: see [readFile]. *)
Definition baselineExists (fs : FS) (path : jsstring) : bool :=
  match fs !! path with
  | Some (PngFile _) => true
  | Some (OtherFile content) => truthy content
  | None => false
  end.

Inductive Failure :=
| Error (message : jsstring)        (* new Error(message) *)
| TaskRejected (task : jsstring)    (* cy.task fails: no handler, or it threw *)
| NotAFunction                      (* TypeError: cy.allure is not a function *)
| FileNotFound (path : jsstring).   (* cy.readFile fails: no file at the path *)

Inductive VOutcome (A : Type) :=
| Returned (a : A)
| Failed (f : Failure).
Arguments Returned {A} a.
Arguments Failed {A} f.

(** [cy.readFile(path, 'base64', options)], the yield read as a
    condition.  The command fails when there is no file at the path;
    the runner knows no option that would make it yield instead, and
    the [failOnError] and [timeout] of the two call sites do not. *)
Definition readFile (path : jsstring) : VCy (VOutcome bool) :=
  vemit (ReadFile path) ;;
  onFiles (fun fs =>
    (match fs !! path with
     | None => Failed (FileNotFound path)
     | Some _ => Returned (baselineExists fs path)
     end, fs)).

Definition showPixels (r : VisualComparisonResult) : jsstring :=
  match diffPixels r with Some n => of_Z n | None => js "undefined" end.

(** [a > b] on a pixel count and a bound, as doubles; an undefined
    count exceeds nothing. *)
Definition exceeds (pixels : option Z) (bound : float) : bool :=
  match pixels with
  | Some n => PrimFloat.ltb bound (float_of_Z n)
  | None => false
  end.

(** The [then] callback of the [compareImages] task in the
    [compareSnapshot] command. *)
Definition onCompareResult (n : NodeHost) (config : VisualTestingConfig)
    (name : jsstring) (result : VisualComparisonResult) : VCy (VOutcome unit) :=
  match result with
  | Errored message =>
      if truthy message then
        vret (Failed (Error (js "Visual comparison failed: " ++ message)))
      else vret (Returned tt)
  | _ => vret (Returned tt)
  end ≫= fun checked =>
  match checked with
  | Failed f => vret (Failed f)
  | Returned _ =>
      if negb (passed result) then
        vemit (Log (js "Visual difference detected: " ++ showPixels result
                   ++ js " pixels differ")) ;;
        vemit (TaskLog (js "Visual test failed for " ++ name ++ js ": "
                       ++ showPixels result ++ js " pixels differ")) ;;
        (* Attach diff image to allure report *)
        (if allure n then
           vemit (Attachment (js "Visual Diff")
                   (match result with Compared _ _ (Some p) => p | _ => [] end))
         else vret tt) ;;
        if exceeds (diffPixels result) (threshold config * 1000)%float then
          vret (Failed (Error (js "Visual regression detected in " ++ name)))
        else vret (Returned tt)
      else
        vemit (Log (js "Visual comparison passed for " ++ name)) ;;
        vret (Returned tt)
  end.

(** The [compareSnapshot] command; [visualTesting] is
    [Cypress.env('visualTesting')], which may be undefined. *)
Definition compareSnapshot (n : NodeHost) (visualTesting : option VisualTestingConfig)
    (name : jsstring) : VCy (VOutcome unit) :=
  match visualTesting with
  | Some config =>
      if negb (enabled config) then
        vemit (Log (js "Visual testing is disabled")) ;; vret (Returned tt)
      else
        vemit (Screenshot (js "actual/" ++ name)) ;;
        onFiles (fun fs => (tt, takeScreenshot n (js "actual/" ++ name) fs)) ;;
        let actualPath := js "cypress/screenshots/actual/" ++ name ++ js ".png" in
        let baselinePath := js "cypress/screenshots/baseline/" ++ name ++ js ".png" in
        read ← readFile baselinePath;
        match read with
        | Failed f => vret (Failed f)
        | Returned baselineExists =>
            if negb baselineExists then
              vemit (Log (js "Baseline not found for " ++ name
                          ++ js ", creating baseline...")) ;;
              vemit (TaskLog (js "Creating baseline for " ++ name)) ;;
              vret (Returned tt)
            else
              vemit (TaskCompareImages baselinePath actualPath) ;;
              result ← onFiles (fun fs =>
                compareImages n (taskConfig n) fs baselinePath actualPath);
              onCompareResult n config name result
        end
  | None => vemit (Log (js "Visual testing is disabled")) ;; vret (Returned tt)
  end.

(** The options of a comparison that [performImageComparison] reads. *)
Record VisualComparisonOptions := {
  opt_threshold : option float;
  failOnDifference : option bool
}.

Definition logComparisonResult (name : jsstring) (result : VisualComparisonResult)
  : VCy unit :=
  if passed result then
    vemit (AddTestLog (js "Visual comparison passed: " ++ name) (js "info"))
  else
    let message := js "Visual comparison failed: " ++ name ++ js " ("
                   ++ showPixels result ++ js " pixels differ)" in
    vemit (AddTestLog message
            (if exceeds (diffPixels result) 100%float
             then js "error" else js "warn")).

Definition attachDiffToReport (n : NodeHost) (name : jsstring)
    (result : VisualComparisonResult) : VCy (VOutcome unit) :=
  match result with
  | Compared _ _ (Some diffPath) =>
      if truthy diffPath then
        if allure n then
          (* Attach to Allure report *)
          vemit (Attachment (js "Visual Diff - " ++ name) diffPath) ;;
          (* Log diff image path *)
          vemit (AddTestLog (js "Diff image saved: " ++ diffPath) (js "info")) ;;
          vret (Returned tt)
        else vret (Failed NotAFunction)
      else vret (Returned tt)
  | _ => vret (Returned tt)
  end.

(** [cy.task(task, ...)] where the handler, if one is registered, is
    taken to answer [null] and leave no trace: the runner rejects the
    call when [setupNodeEvents] registers no task of that name. *)
Definition taskWithoutHandler (task : jsstring) : VCy (VOutcome unit) :=
  if registered task then vret (Returned tt)
  else vret (Failed (TaskRejected task)).

(** [VisualTesting.performImageComparison]; [config] is the instance's
    configuration.  The [copyFile] task of the first-run branch is one
    [setupNodeEvents] does not register. *)
Definition performImageComparison (n : NodeHost) (config : VisualTestingConfig)
    (name baselinePath actualPath : jsstring) (options : VisualComparisonOptions)
  : VCy (VOutcome VisualComparisonResult) :=
  read ← readFile baselinePath;
  match read with
  | Failed f => vret (Failed f)
  | Returned baselineExists =>
      if negb baselineExists then
        vemit (AddTestLog (js "No baseline found for " ++ name
                          ++ js ", treating as new baseline") (js "warn")) ;;
        vemit (TaskCopyFile actualPath baselinePath) ;;
        copied ← taskWithoutHandler (js "copyFile");
        match copied with
        | Failed f => vret (Failed f)
        | Returned _ => vret (Returned (Compared true 0 None))
        end
      else
        vemit (TaskCompareImages baselinePath actualPath) ;;
        result ← onFiles (fun fs =>
          compareImages n (taskConfig n) fs baselinePath actualPath);
        logComparisonResult name result ;;
        pushResult result ;;
        if negb (passed result) &&
           negb (match failOnDifference options with
                 | Some false => true | _ => false end)
        then
          attached ← attachDiffToReport n name result;
          match attached with
          | Failed f => vret (Failed f)
          | Returned _ => vret (Returned result)
          end
        else vret (Returned result)
  end.

End Visual.

(** ** The healing report ([AutoHealing.generateHealingReport]) *)

Module HealingReports.

Record HealingReport := {
  timestamp : jsstring;
  testRun : jsstring;
  totalHealingAttempts : nat;
  successfulHealings : nat;
  failedHealings : nat;
  healingsByStrategy : gmap jsstring nat;
  logs : list HealingLog
}.

Definition action_eqb (a b : HealingAction) : bool :=
  match a, b with
  | locator_updated, locator_updated => true
  | element_found, element_found => true
  | healing_failed, healing_failed => true
  | _, _ => false
  end.

(** [healingLogs.filter(log => log.action === a).length]. *)
Definition countAction (a : HealingAction) (healingLogs : list HealingLog) : nat :=
  List.length (List.filter (fun log => action_eqb (action log) a) healingLogs).

Definition getHealingsByStrategy (healingLogs : list HealingLog)
  : gmap jsstring nat :=
  List.fold_left
    (fun (strategies : gmap jsstring nat) log =>
       if action_eqb (action log) element_found then
         (* This would need to be enhanced to track which strategy was used *)
         <[js "unknown" := (default 0%nat (strategies !! js "unknown") + 1)%nat]>
           strategies
       else strategies)
    healingLogs ∅.

(** [getHealingReport]: a copy of the log. *)
Definition getHealingReport (st : CyState) : list HealingLog := healingLogs st.

Definition clearHealingLogs (st : CyState) : CyState :=
  {| healingLogs := []; effects := effects st |}.

(** [generateHealingReport]: the path and the object handed to
    [cy.writeFile]; [isoNow] is [new Date().toISOString()] and
    [specName] is [Cypress.spec.name]. *)
Definition generateHealingReport (isoNow specName : jsstring)
    (config : AutoHealingConfig) (st : CyState) : jsstring * HealingReport :=
  (reportPath config,
   {| timestamp := isoNow;
      testRun := specName;
      totalHealingAttempts := List.length (healingLogs st);
      successfulHealings := countAction element_found (healingLogs st);
      failedHealings := countAction healing_failed (healingLogs st);
      healingsByStrategy := getHealingsByStrategy (healingLogs st);
      logs := healingLogs st |}).

End HealingReports.

(** ** Runs and reports of [VisualTesting] *)

Module VisualRuns.
Import Visual.

(** [VisualTesting.performComparison]; the screenshot options, which
    the effects do not record, are left out. *)
Definition performComparison (n : NodeHost) (config : VisualTestingConfig)
    (name : jsstring) (options : VisualComparisonOptions)
  : VCy (VOutcome VisualComparisonResult) :=
  if negb (enabled config) then
    vemit (AddTestLog (js "Visual testing is disabled") (js "warn")) ;;
    vret (Returned (Compared true 0 None))
  else
    vemit (AddTestLog (js "Performing visual comparison: " ++ name) (js "info")) ;;
    let actualPath := actualDir config ++ js "/" ++ name ++ js ".png" in
    let baselinePath := baselineDir config ++ js "/" ++ name ++ js ".png" in
    vemit (Screenshot name) ;;
    onFiles (fun fs => (tt, takeScreenshot n name fs)) ;;
    performImageComparison n config name baselinePath actualPath options.

Record VisualReport := {
  timestamp : jsstring;
  testSuite : jsstring;
  totalComparisons : nat;
  passedCount : nat;
  failedCount : nat;
  results : list VisualComparisonResult;
  configuration : VisualTestingConfig
}.

(** [VisualTesting.generateVisualReport]: [stringify] is the JSON
    encoding [cy.writeFile] applies to the report, [isoNow] and [nowMs]
    are the two readings of the clock, [specName] is
    [Cypress.spec.name].  The fields [passed] and [failed] of the
    report are [passedCount] and [failedCount]. *)
Definition generateVisualReport (stringify : VisualReport -> jsstring)
    (isoNow specName : jsstring) (nowMs : Z) (config : VisualTestingConfig)
  : VCy VisualReport :=
  fun st =>
    let report :=
      {| timestamp := isoNow;
         testSuite := specName;
         totalComparisons := List.length (testResults st);
         passedCount := List.length (List.filter passed (testResults st));
         failedCount :=
           List.length (List.filter (fun r => negb (passed r)) (testResults st));
         results := testResults st;
         configuration := config |} in
    let reportPath := js "reports/visual-testing-" ++ of_Z nowMs ++ js ".json" in
    (onFiles (fun fs => (tt, <[reportPath := OtherFile (stringify report)]> fs)) ;;
     vemit (AddTestLog (js "Visual testing report generated: " ++ reportPath)
              (js "info")) ;;
     vret report) st.

End VisualRuns.

(** * Vocabulary of the properties

    The names the statements below use: candidates and their keys, the
    pure reading of the probing loops, the records and effects of an
    attempt, and the hosts and files of the worked scenarios. *)

Import AutoHealing Resolver.

(** ** Candidates in probe order

    The nested loops of [attemptFind] visit the candidates of the
    permitted strategies in one fixed order.  [candidates] lists them
    with their key: the priority of the strategy and the index of the
    selector in it. *)

(** [$body.find(selector).length > 0], for a body that answers [f]. *)
Definition matches (f : jsstring -> nat) (selector : jsstring) : bool :=
  (0 <? f selector)%nat.

Definition Candidate : Type := Z * nat * jsstring.

Definition cand_selector (c : Candidate) : jsstring := snd c.

Fixpoint indexed (p : Z) (i : nat) (sels : list jsstring) : list Candidate :=
  match sels with
  | [] => []
  | s :: rest => (p, i, s) :: indexed p (S i) rest
  end.

Definition candidates (strategies : list HealingStrategy) : list Candidate :=
  List.flat_map (fun st => indexed (priority st) 0 (selectors st)) strategies.



(** ** The strategies a sensitivity permits

    The strategies [getHealingStrategies] generates before it filters
    them, the ceiling of each sensitivity, and the candidates of the
    generated strategies whose priority is within the ceiling. *)

Definition generatedStrategies (h : Host) (config : AutoHealingConfig)
    (originalSelector : jsstring) (hint : option ElementType)
  : list HealingStrategy :=
  [getAttributeStrategy originalSelector]
  ++ (match hint with Some t => [getSemanticStrategy t] | None => [] end)
  ++ [getTextStrategy h originalSelector;
      getStructuralStrategy config originalSelector;
      getRoleStrategy hint;
      getFuzzyMatchingStrategy originalSelector].

Definition sensitivityCeiling (level : Sensitivity) : Z :=
  match level with
  | low => 2
  | medium => 4
  | high => 6
  end.

Definition permittedStrategies (h : Host) (config : AutoHealingConfig)
    (originalSelector : jsstring) (hint : option ElementType)
  : list HealingStrategy :=
  List.filter (fun s => priority s <=? sensitivityCeiling (sensitivity config))
    (generatedStrategies h config originalSelector hint).

Definition permittedCandidates (h : Host) (config : AutoHealingConfig)
    (originalSelector : jsstring) (hint : option ElementType) : list Candidate :=
  candidates (permittedStrategies h config originalSelector hint).

(** ** The probing loops, read as functions

    What the loops of [attemptFind] come to and which selectors they
    probe, as functions of the body and of the selector engine. *)

(** The loop over [sels]: the first selector with a match, unless the
    engine rejects a selector before one is found. *)
Fixpoint searchSelectors (h : Host) (k : Z) (sels : list jsstring)
  : Search jsstring :=
  match sels with
  | [] => Miss
  | s :: rest =>
      match findError h s with
      | Some message => Raised message
      | None =>
          if matches (bodyFind h k) s then Hit s else searchSelectors h k rest
      end
  end.

(** The selectors a loop over [sels] probes: all up to the first match
    or the first rejection. *)
Fixpoint probed (h : Host) (k : Z) (sels : list jsstring) : list jsstring :=
  match sels with
  | [] => []
  | s :: rest =>
      s :: (match findError h s with
            | Some _ => []
            | None => if matches (bodyFind h k) s then [] else probed h k rest
            end)
  end.

Fixpoint searchStrategies (h : Host) (k : Z) (strategies : list HealingStrategy)
  : Search (HealingStrategy * jsstring) :=
  match strategies with
  | [] => Miss
  | st :: rest =>
      match searchSelectors h k (selectors st) with
      | Hit s => Hit (st, s)
      | Raised message => Raised message
      | Miss => searchStrategies h k rest
      end
  end.

Fixpoint probedAll (h : Host) (k : Z) (strategies : list HealingStrategy)
  : list jsstring :=
  match strategies with
  | [] => []
  | st :: rest =>
      probed h k (selectors st)
      ++ (match searchSelectors h k (selectors st) with
          | Miss => probedAll h k rest
          | _ => []
          end)
  end.

(** A candidate the engine parses and the body of attempt [k] has no
    element for: the loops pass it by. *)
Definition quiet (h : Host) (k : Z) (c : Candidate) : Prop :=
  findError h (cand_selector c) = None
  /\ matches (bodyFind h k) (cand_selector c) = false.

(** ** Records and effects of an attempt *)

Definition addEffects (st : CyState) (es : list Effect) : CyState :=
  {| healingLogs := healingLogs st; effects := effects st ++ es |}.

(** The record of a heal on attempt [k], and that of a failure. *)
Definition foundLog (h : Host) (originalSelector : jsstring)
    (hint : option ElementType) (k : Z) (selector : jsstring) : HealingLog :=
  {| timestamp := now h k; testFile := specRelative h;
     oldSelector := originalSelector; newSelector := selector;
     action := element_found; elementType := typeOrUnknown hint |}.

Definition failedLog (h : Host) (originalSelector : jsstring)
    (hint : option ElementType) (k : Z) : HealingLog :=
  {| timestamp := now h k; testFile := specRelative h;
     oldSelector := originalSelector; newSelector := [];
     action := healing_failed; elementType := typeOrUnknown hint |}.

(** The effects of attempt [k] up to the end of its probing loops. *)
Definition probingEffects (h : Host) (config : AutoHealingConfig)
    (originalSelector : jsstring) (hint : option ElementType) (k : Z)
  : list Effect :=
  [CyGetBody; BodyFind originalSelector;
   CyTaskLog (js "Auto-healing attempt " ++ of_Z k ++ js " for selector: "
              ++ originalSelector);
   Generate originalSelector]
  ++ List.map BodyFind
       (probedAll h k (getHealingStrategies h config originalSelector hint)).

(** The effects of a successful heal, after the probing loops. *)
Definition healEffects (h : Host) (originalSelector : jsstring)
    (strategy : HealingStrategy) (selector : jsstring) : list Effect :=
  [CyTaskLog (js "Auto-healing success: Found element with " ++ name strategy
              ++ js " strategy using selector: " ++ selector);
   CyTaskUpdateLocator originalSelector selector (specRelative h);
   CyTaskLog (suggestion h originalSelector selector (name strategy));
   CyGet selector].

(** The loops of attempt [k] run to their end without a match: the
    original selector has none, and the search of the strategies the
    resolver tries comes to none. *)
Definition nothingMatches (h : Host) (config : AutoHealingConfig)
    (originalSelector : jsstring) (hint : option ElementType) (k : Z) : Prop :=
  matches (bodyFind h k) originalSelector = false
  /\ searchStrategies h k
       (getHealingStrategies h config originalSelector hint) = Miss.

Definition priority_le (a b : HealingStrategy) : Prop := priority a <= priority b.


(** Nothing matches on the body of attempt [k]: the original selector
    does not, and every candidate of a strategy the sensitivity permits
    is a selector the engine parses and finds no element for. *)
Definition silentAt (h : Host) (config : AutoHealingConfig)
    (originalSelector : jsstring) (hint : option ElementType) (k : Z) : Prop :=
  matches (bodyFind h k) originalSelector = false
  /\ forall c,
       In c (permittedCandidates h config originalSelector hint) -> quiet h k c.

(** The waits among a sequence of effects, in order. *)
Fixpoint waits (es : list Effect) : list Q :=
  match es with
  | [] => []
  | CyWait ms :: rest => ms :: waits rest
  | _ :: rest => waits rest
  end.

(** ** Hosts and files of the worked scenarios *)

(** Case mappings that move the ASCII letters and nothing else. *)
Definition asciiLower (s : jsstring) : jsstring :=
  List.map (fun c => if is_upper c then (c + 32)%N else c) s.

Definition asciiUpper (s : jsstring) : jsstring :=
  List.map (fun c => if is_lower c then (c - 32)%N else c) s.

(** The engine of the scenarios reads the double quotes of a selector
    in pairs, and wants a closing bracket or parenthesis right after
    the second of each pair, as after a quoted attribute value or a
    quoted text.  A selector whose quotes do not pair up so is one it
    cannot parse; it parses every other. *)
Fixpoint quotesPaired (inside : bool) (s : jsstring) : bool :=
  match s with
  | [] => negb inside
  | c :: rest =>
      if (c =? 34)%N then
        if inside then
          match rest with
          | d :: _ => ((d =? 93) || (d =? 41))%N && quotesPaired false rest
          | [] => false
          end
        else quotesPaired true rest
      else quotesPaired inside rest
  end.

Definition scenarioEngine (s : jsstring) : option jsstring :=
  if quotesPaired false s then None
  else Some (js "Syntax error, unrecognized expression: " ++ s).

(** A host whose page has one element for each selector of [present]
    and none for any other, on every attempt. *)
Definition pageWith (present : list jsstring) : Host :=
  {| toLowerCase := asciiLower;
     toUpperCase := asciiUpper;
     bodyFind := fun _ s => if List.existsb (Js.eqb s) present then 1%nat else 0%nat;
     findError := scenarioEngine;
     now := fun _ => js "2024-01-01T00:00:00.000Z";
     random := fun _ => (1 # 2)%Q;
     specRelative := js "tests/smoke/login.spec.ts" |}.

Definition submitBtn : jsstring := js "#submit-btn".
Definition submitTestId : jsstring :=
  attrSelector (js "data-testid") (js "=") (js "submit-btn").



Definition configWith (on : bool) (level : Sensitivity) (retries : Z)
  : AutoHealingConfig :=
  {| enabled := on; sensitivity := level; maxRetries := retries;
     reportPath := js "reports/auto-healing.json" |}.

Definition freshRun : CyState := {| healingLogs := []; effects := [] |}.

(** [quiet], decided, and the engine parsing a selector, decided. *)
Definition parsed (h : Host) (s : jsstring) : bool :=
  match findError h s with
  | None => true
  | Some _ => false
  end.

Definition quietb (h : Host) (k : Z) (c : Candidate) : bool :=
  parsed h (cand_selector c) && negb (matches (bodyFind h k) (cand_selector c)).


(** The settings of [cypress.config.ts]; the threshold is the double
    of the literal 0.1. *)
#[local] Set Warnings "-inexact-float".
Definition scenarioVisual : Visual.VisualTestingConfig :=
  {| Visual.enabled := true;
     Visual.threshold := 0.1%float;
     Visual.baselineDir := js "screenshots/baseline";
     Visual.diffDir := js "screenshots/diff";
     Visual.actualDir := js "screenshots/actual" |}.

(** The number of positions at which two data buffers differ. *)
Fixpoint differing (a b : list N) : Z :=
  match a, b with
  | x :: a', y :: b' => (if (x =? y)%N then 0 else 1) + differing a' b'
  | _, _ => 0
  end.

(** A host for the scenarios: a diff routine that counts differing
    positions and rejects buffers of different sizes, paths joined by a
    slash, writes that go through, and screenshots that are on disk
    already. *)
Definition scenarioNode : Visual.NodeHost :=
  {| Visual.pixelmatch := fun a b _ _ _ =>
       if (List.length a =? List.length b)%nat
       then inr (differing a b, List.map (fun _ => 0%N) a)
       else inl (js "Image sizes do not match.");
     Visual.pathJoin := fun a b => a ++ js "/" ++ b;
     Visual.pathBasename := fun p _ => js "home";
     Visual.readFileError := fun p => js "ENOENT: no such file or directory";
     Visual.pngReadError := js "Invalid file signature";
     Visual.writeFileError := fun _ => None;
     Visual.takeScreenshot := fun _ fs => fs;
     Visual.allure := false;
     Visual.taskConfig := scenarioVisual |}.

Definition flat (value : N) : Visual.PNG :=
  {| Visual.width := 10; Visual.height := 5; Visual.data := List.repeat value 50 |}.

Definition baselineHome : jsstring := js "cypress/screenshots/baseline/home.png".
Definition actualHome : jsstring := js "cypress/screenshots/actual/home.png".

Definition bothFiles : Visual.FS :=
  <[baselineHome := Visual.PngFile (flat 0)]>
    (<[actualHome := Visual.PngFile (flat 255)]> ∅).

Definition actualOnly : Visual.FS := <[actualHome := Visual.PngFile (flat 255)]> ∅.

Definition freshVisual (files : Visual.FS) : Visual.VState :=
  {| Visual.fs := files; Visual.testResults := []; Visual.log := [] |}.

(** ** Shapes of selectors *)

(** The code units a [#] identifier may hold: all but the dot, the
    whitespace and the opening bracket. *)
Definition id_char (c : N) : bool :=
  negb ((c =? 46)%N || is_space c || (c =? 91)%N).

(** The code units a class identifier may hold: all but the hash, the
    whitespace and the opening bracket. *)
Definition class_char (c : N) : bool :=
  negb ((c =? 35)%N || is_space c || (c =? 91)%N).

(** [rest] is empty or begins with a code unit outside the class [p]. *)
Definition stops (p : N -> bool) (rest : jsstring) : bool :=
  match rest with
  | [] => true
  | c :: _ => negb (p c)
  end.

(** A code unit that begins none of the four patterns of
    [extractIdentifier]: no hash, dot, opening bracket or colon. *)
Definition plain_char (c : N) : bool :=
  negb ((c =? 35)%N || (c =? 46)%N || (c =? 91)%N || (c =? 58)%N).

(** ** Sizes and orders of strategy lists *)

(** The most candidates the strategies of a sensitivity can hold. *)
Definition candidateBound (level : Sensitivity) : nat :=
  match level with
  | low => 33
  | medium => 63
  | high => 80
  end.

(** [l.filter(s => s.priority === p)]. *)
Definition withPriority (p : Z) (l : list HealingStrategy) : list HealingStrategy :=
  List.filter (fun s => priority s =? p) l.

(** [l.filter(s => s.priority <= ceiling)] for the ceiling of [config]. *)
Definition withinCeiling (config : AutoHealingConfig) (l : list HealingStrategy)
  : list HealingStrategy :=
  List.filter (fun s => priority s <=? getSensitivityMaxPriority config) l.

(** ** Attempts and their delays *)

(** The numbers of [n] attempts in a row, from attempt [a] on. *)
Fixpoint attemptsFrom (a : Z) (n : nat) : list Z :=
  match n with
  | O => []
  | S n' => a :: attemptsFrom (a + 1) n'
  end.

(** The delays after each of [n] attempts in a row, from attempt [a] on. *)
Definition retryDelays (h : Host) (a : Z) (n : nat) : list Q :=
  List.map (fun k => getRetryDelay k (random h k)) (attemptsFrom a n).

(** What a resolver run leaves in the healing log: records of finds
    and of failures, none of a locator update. *)
Definition resolverRecord (l : HealingLog) : Prop := action l <> locator_updated.

(** The breakdown of [getHealingsByStrategy] for [n] finds. *)
Definition tally (n : nat) : gmap jsstring nat :=
  if (n =? 0)%nat then ∅ else {[ js "unknown" := n ]}.

(** How a run of the resolver on selector [sel] from state [st] can end,
    and what it then adds to the healing log: the original selector
    handed back and nothing logged; a candidate of a permitted strategy
    that the engine parsed and that matched on some attempt [k] within
    [maxRetries] handed back and its record logged; the failure thrown
    and its record logged; or the error of the engine thrown, on a
    candidate of a permitted strategy it could not parse, and nothing
    logged. *)
Definition runEnding (h : Host) (config : AutoHealingConfig) (sel : jsstring)
    (hint : option ElementType) (st : CyState)
    (run : option Outcome * CyState) : Prop :=
  (fst run = Some (Yield sel) /\ healingLogs (snd run) = healingLogs st)
  \/ (exists k c,
        fst run = Some (Yield (cand_selector c))
        /\ healingLogs (snd run)
           = healingLogs st ++ [foundLog h sel hint k (cand_selector c)]
        /\ 1 <= k <= maxRetries config
        /\ In c (permittedCandidates h config sel hint)
        /\ findError h (cand_selector c) = None
        /\ matches (bodyFind h k) (cand_selector c) = true)
  \/ (exists k,
        fst run = Some (Throw (Resolver.failureMessage sel (maxRetries config)))
        /\ healingLogs (snd run) = healingLogs st ++ [failedLog h sel hint k])
  \/ (exists c message,
        fst run = Some (Throw message)
        /\ healingLogs (snd run) = healingLogs st
        /\ In c (permittedCandidates h config sel hint)
        /\ findError h (cand_selector c) = Some message).

(** A host whose page is empty before attempt [k0] and has one element
    for each selector of [present] from attempt [k0] on. *)
Definition pageFrom (k0 : Z) (present : list jsstring) : Host :=
  {| toLowerCase := asciiLower;
     toUpperCase := asciiUpper;
     bodyFind := fun k s =>
       if (k0 <=? k) && List.existsb (Js.eqb s) present then 1%nat else 0%nat;
     findError := scenarioEngine;
     now := fun _ => js "2024-01-01T00:00:00.000Z";
     random := fun _ => (1 # 2)%Q;
     specRelative := js "tests/smoke/login.spec.ts" |}.

(** ** The command's attempts *)



(** The effects of attempt [k] of the command up to the end of its
    probing loop. *)
Definition commandProbing (h : Host) (sel : jsstring) (k : Z) : list Effect :=
  [CyGetBody; BodyFind sel;
   CyLog (js "Auto-healing: Attempt " ++ of_Z k ++ js " for selector: " ++ sel);
   Generate sel]
  ++ List.map BodyFind
       (probed h k (Commands.generateAlternativeSelectors sel)).



(** ** Paths and states of the visual runs *)

(** The path the [compareImages] task writes the diff image to. *)
Definition diffPathOf (n : Visual.NodeHost) (config : Visual.VisualTestingConfig)
    (actual : jsstring) : jsstring :=
  Visual.pathJoin n (Visual.diffDir config)
    (Visual.pathBasename n actual (js ".png") ++ js "-diff.png").

(** The result [{passed: true, diffPixels: 0}] that stands for a run
    without a comparison. *)
Definition syntheticPass : Visual.VisualComparisonResult :=
  Visual.Compared true 0 None.

Definition addLog (st : Visual.VState) (es : list Visual.VEffect) : Visual.VState :=
  {| Visual.fs := Visual.fs st;
     Visual.testResults := Visual.testResults st;
     Visual.log := Visual.log st ++ es |}.

(** The paths of a snapshot of the [compareSnapshot] command. *)
Definition snapshotBaseline (name : jsstring) : jsstring :=
  js "cypress/screenshots/baseline/" ++ name ++ js ".png".
Definition snapshotActual (name : jsstring) : jsstring :=
  js "cypress/screenshots/actual/" ++ name ++ js ".png".

(** Files with a baseline image and no actual image. *)
Definition baselineOnly : Visual.FS := <[baselineHome := Visual.PngFile (flat 0)]> ∅.

(** What [performImageComparison] hands back once a comparison gave
    [result]: the result, unless the result is a failed comparison with
    a diff path to attach, attaching is not switched off by
    [failOnDifference: false], and the Allure plugin is missing. *)
Definition afterComparison (n : Visual.NodeHost)
    (options : Visual.VisualComparisonOptions)
    (result : Visual.VisualComparisonResult)
  : Visual.VOutcome Visual.VisualComparisonResult :=
  match result, Visual.failOnDifference options with
  | Visual.Compared false _ (Some path), Some false => Visual.Returned result
  | Visual.Compared false _ (Some path), _ =>
      if truthy path && negb (Visual.allure n)
      then Visual.Failed Visual.NotAFunction
      else Visual.Returned result
  | _, _ => Visual.Returned result
  end.

(** The three effects of [performImageComparison] on an empty file at
    the baseline path. *)
Definition firstRunEffects (name baselinePath actualPath : jsstring)
  : list Visual.VEffect :=
  [Visual.ReadFile baselinePath;
   Visual.AddTestLog
     (js "No baseline found for " ++ name ++ js ", treating as new baseline")
     (js "warn");
   Visual.TaskCopyFile actualPath baselinePath].

(** * Properties *)

(** ** Runs of the probing loops *)

Lemma addEffects_nil st : addEffects st [] = st.
Proof. destruct st; unfold addEffects; simpl. now rewrite app_nil_r. Qed.

Lemma addEffects_app st a b :
  addEffects (addEffects st a) b = addEffects st (a ++ b).
Proof. unfold addEffects; simpl. now rewrite <- app_assoc. Qed.

Lemma bind_run {A B} (m : Cy A) (k : A -> Cy B) st :
  (m ≫= k) st = k (fst (m st)) (snd (m st)).
Proof. unfold mbind, cy_bind. now destruct (m st). Qed.

Lemma emit_run e st : emit e st = (tt, addEffects st [e]).
Proof. reflexivity. Qed.

Lemma ret_run {A} (a : A) st : ret a st = (a, st).
Proof. reflexivity. Qed.

Lemma find_run h k s st :
  find h k s st = (bodyFind h k s, addEffects st [BodyFind s]).
Proof. reflexivity. Qed.

Lemma probe_run h k s st :
  probe h k s st
  = (match findError h s with
     | Some message => Rejected message
     | None => Count (bodyFind h k s)
     end,
     addEffects st [BodyFind s]).
Proof. reflexivity. Qed.

Ltac cy_step :=
  repeat (rewrite ?bind_run, ?emit_run, ?find_run, ?probe_run, ?ret_run;
          cbn [fst snd]).

Lemma probeSelectors_run h k sels st :
  probeSelectors h k sels st
  = (searchSelectors h k sels,
     addEffects st (List.map BodyFind (probed h k sels))).
Proof.
  revert st. induction sels as [|s rest IH]; intros st.
  - cbn [probeSelectors probed searchSelectors List.map].
    now rewrite ret_run, addEffects_nil.
  - cbn [probeSelectors probed searchSelectors List.map].
    cy_step. destruct (findError h s) as [message|].
    + now rewrite ret_run.
    + fold (matches (bodyFind h k) s).
      destruct (matches (bodyFind h k) s) eqn:M.
      * now rewrite ret_run.
      * rewrite IH, addEffects_app. reflexivity.
Qed.

Lemma probeStrategies_run h k strategies st :
  probeStrategies h k strategies st
  = (searchStrategies h k strategies,
     addEffects st (List.map BodyFind (probedAll h k strategies))).
Proof.
  revert st. induction strategies as [|s rest IH]; intros st.
  - cbn [probeStrategies probedAll searchStrategies List.map].
    now rewrite ret_run, addEffects_nil.
  - cbn [probeStrategies probedAll searchStrategies].
    rewrite bind_run, probeSelectors_run. cbn [fst snd].
    destruct (searchSelectors h k (selectors s)) eqn:F.
    + now rewrite ret_run, app_nil_r.
    + rewrite IH, addEffects_app, map_app. reflexivity.
    + now rewrite ret_run, app_nil_r.
Qed.

(** ** One attempt of the resolver *)

Section Attempt.
Variables (h : Host) (config : AutoHealingConfig).
Variables (originalSelector : jsstring) (hint : option ElementType).

Lemma allAttemptsFailed_run k st :
  allAttemptsFailed h config originalSelector hint k st
  = (Some (Throw (Resolver.failureMessage originalSelector (maxRetries config))),
     {| healingLogs := healingLogs st ++ [failedLog h originalSelector hint k];
        effects := effects st
          ++ [CyTaskUpdateLocator originalSelector [] (specRelative h)] |}).
Proof. reflexivity. Qed.

Lemma attemptFind_fast fuel attempts st :
  matches (bodyFind h (attempts + 1)) originalSelector = true ->
  attemptFind h config originalSelector hint (S fuel) attempts st
  = (Some (Yield originalSelector),
     addEffects st [CyGetBody; BodyFind originalSelector; CyGet originalSelector]).
Proof.
  intros M. cbn [attemptFind]. cy_step.
  unfold matches in M. rewrite M. cy_step.
  now rewrite !addEffects_app.
Qed.

Lemma attemptFind_heal fuel attempts st strategy selector :
  matches (bodyFind h (attempts + 1)) originalSelector = false ->
  attempts + 1 <= maxRetries config ->
  searchStrategies h (attempts + 1)
    (getHealingStrategies h config originalSelector hint) = Hit (strategy, selector) ->
  attemptFind h config originalSelector hint (S fuel) attempts st
  = (Some (Yield selector),
     {| healingLogs := healingLogs st ++ [foundLog h originalSelector hint (attempts + 1) selector];
        effects := effects st ++ probingEffects h config originalSelector hint (attempts + 1)
                   ++ healEffects h originalSelector strategy selector |}).
Proof.
  intros M L F.
  cbn [attemptFind]. cy_step. unfold matches in M. rewrite M.
  apply Z.leb_le in L. rewrite L. cy_step.
  rewrite probeStrategies_run. rewrite F. cbn [fst snd].
  unfold logHealingAction, suggestSelectorUpdate. cy_step.
  unfold pushLog, addEffects. cbn [fst snd healingLogs effects].
  unfold foundLog, probingEffects, healEffects.
  cbn [oldSelector newSelector testFile].
  f_equal. f_equal. rewrite <- !app_assoc. reflexivity.
Qed.

(** A candidate the engine cannot parse ends the run with the error of
    the engine: no record, no wait, no further attempt. *)
Lemma attemptFind_raised fuel attempts st message :
  matches (bodyFind h (attempts + 1)) originalSelector = false ->
  attempts + 1 <= maxRetries config ->
  searchStrategies h (attempts + 1)
    (getHealingStrategies h config originalSelector hint) = Raised message ->
  attemptFind h config originalSelector hint (S fuel) attempts st
  = (Some (Throw message),
     addEffects st (probingEffects h config originalSelector hint (attempts + 1))).
Proof.
  intros M L F.
  cbn [attemptFind]. cy_step. unfold matches in M. rewrite M.
  apply Z.leb_le in L. rewrite L. cy_step.
  rewrite probeStrategies_run. rewrite F. cbn [fst snd]. rewrite ret_run.
  rewrite !addEffects_app. unfold probingEffects.
  rewrite <- ?app_assoc. reflexivity.
Qed.

Lemma attemptFind_retry fuel attempts st :
  nothingMatches h config originalSelector hint (attempts + 1) ->
  attempts + 1 < maxRetries config ->
  attemptFind h config originalSelector hint (S fuel) attempts st
  = attemptFind h config originalSelector hint fuel (attempts + 1)
      (addEffects st
         (probingEffects h config originalSelector hint (attempts + 1)
          ++ [CyWait (getRetryDelay (attempts + 1) (random h (attempts + 1)))])).
Proof.
  intros [M F] L. cbn [attemptFind]. cy_step. unfold matches in M. rewrite M.
  replace (attempts + 1 <=? maxRetries config) with true
    by (symmetry; apply Z.leb_le; lia).
  cy_step. rewrite probeStrategies_run. rewrite F. cbn [fst snd].
  apply Z.ltb_lt in L. rewrite L. cy_step.
  rewrite !addEffects_app. unfold probingEffects.
  rewrite <- !app_assoc. reflexivity.
Qed.

Lemma attemptFind_last fuel attempts st :
  nothingMatches h config originalSelector hint (attempts + 1) ->
  attempts + 1 = maxRetries config ->
  attemptFind h config originalSelector hint (S fuel) attempts st
  = (Some (Throw (Resolver.failureMessage originalSelector (maxRetries config))),
     {| healingLogs := healingLogs st ++ [failedLog h originalSelector hint (attempts + 1)];
        effects := effects st ++ probingEffects h config originalSelector hint (attempts + 1)
          ++ [CyTaskUpdateLocator originalSelector [] (specRelative h)] |}).
Proof.
  intros [M F] L. cbn [attemptFind]. cy_step. unfold matches in M. rewrite M.
  replace (attempts + 1 <=? maxRetries config) with true
    by (symmetry; apply Z.leb_le; lia).
  cy_step. rewrite probeStrategies_run. rewrite F. cbn [fst snd].
  replace (attempts + 1 <? maxRetries config) with false
    by (symmetry; apply Z.ltb_ge; lia).
  rewrite allAttemptsFailed_run. rewrite !addEffects_app.
  cbn [healingLogs effects addEffects]. unfold probingEffects.
  rewrite <- !app_assoc. reflexivity.
Qed.

Lemma attemptFind_over fuel attempts st :
  matches (bodyFind h (attempts + 1)) originalSelector = false ->
  maxRetries config < attempts + 1 ->
  attemptFind h config originalSelector hint (S fuel) attempts st
  = (Some (Throw (Resolver.failureMessage originalSelector (maxRetries config))),
     {| healingLogs := healingLogs st ++ [failedLog h originalSelector hint (attempts + 1)];
        effects := effects st ++ [CyGetBody; BodyFind originalSelector]
          ++ [CyTaskUpdateLocator originalSelector [] (specRelative h)] |}).
Proof.
  intros M L. cbn [attemptFind]. cy_step. unfold matches in M. rewrite M.
  replace (attempts + 1 <=? maxRetries config) with false
    by (symmetry; apply Z.leb_gt; lia).
  rewrite allAttemptsFailed_run. rewrite !addEffects_app.
  cbn [healingLogs effects addEffects]. rewrite <- !app_assoc. reflexivity.
Qed.


(** The fuel suffices: a run with at least as much fuel as attempts
    are left, and some, comes back with an outcome. *)
Lemma attemptFind_total : forall fuel attempts st,
  (0 < fuel)%nat ->
  maxRetries config - attempts <= Z.of_nat fuel ->
  exists o,
    fst (attemptFind h config originalSelector hint fuel attempts st) = Some o.
Proof.
  induction fuel as [|fuel IH]; intros attempts st Hpos Hfuel; [lia |].
  destruct (matches (bodyFind h (attempts + 1)) originalSelector) eqn:M.
  { rewrite attemptFind_fast by assumption. eauto. }
  destruct (Z_lt_le_dec (maxRetries config) (attempts + 1)) as [Hover | Hin].
  { rewrite attemptFind_over by assumption. eauto. }
  destruct (searchStrategies h (attempts + 1)
              (getHealingStrategies h config originalSelector hint))
    as [[strategy s]| |message] eqn:F.
  { rewrite (attemptFind_heal _ _ _ strategy s) by assumption. eauto. }
  2: { rewrite (attemptFind_raised _ _ _ message) by assumption. eauto. }
  destruct (Z_lt_le_dec (attempts + 1) (maxRetries config)) as [Hmore | Hlast].
  - rewrite attemptFind_retry; [| split; assumption | assumption].
    apply IH; lia.
  - rewrite attemptFind_last; [| split; assumption | lia]. eauto.
Qed.

End Attempt.

(** [findElement] always comes back with an outcome. *)
Lemma findElement_total h config sel hint st :
  exists o, fst (findElement h config sel hint st) = Some o.
Proof.
  unfold findElement. destruct (enabled config); cbn [negb].
  - apply attemptFind_total; lia.
  - cy_step. eauto.
Qed.

(** ** The strategies the resolver tries *)

Lemma insert_by_priority_Forall (P : HealingStrategy -> Prop) s l :
  P s -> Forall P l -> Forall P (insert_by_priority s l).
Proof.
  intros Hs Hl. induction Hl as [|x l Hx Hl IH]; cbn [insert_by_priority].
  - constructor; [assumption | constructor].
  - destruct (priority s - priority x <=? 0); repeat constructor; assumption.
Qed.

Lemma sort_by_priority_Forall (P : HealingStrategy -> Prop) l :
  Forall P l -> Forall P (sort_by_priority l).
Proof.
  induction 1 as [|x l Hx Hl IH]; cbn [sort_by_priority fold_right].
  - constructor.
  - apply insert_by_priority_Forall; assumption.
Qed.

Lemma insert_by_priority_sorted s l :
  StronglySorted priority_le l -> StronglySorted priority_le (insert_by_priority s l).
Proof.
  induction 1 as [|x l Hl IH Hx]; cbn [insert_by_priority].
  - repeat constructor.
  - destruct (priority s - priority x <=? 0) eqn:E.
    + apply Z.leb_le in E. constructor.
      * constructor; assumption.
      * constructor; [unfold priority_le; lia |].
        eapply List.Forall_impl; [| exact Hx]. unfold priority_le. intros; lia.
    + apply Z.leb_gt in E. constructor; [assumption |].
      apply insert_by_priority_Forall; [unfold priority_le; lia | assumption].
Qed.

Lemma sort_by_priority_sorted l : StronglySorted priority_le (sort_by_priority l).
Proof.
  induction l as [|x l IH]; cbn [sort_by_priority fold_right].
  - constructor.
  - apply insert_by_priority_sorted, IH.
Qed.

(** Whatever list it is given, the sensitivity filter keeps only
    strategies within the ceiling, in ascending order of priority. *)
Lemma filterStrategiesBySensitivity_ok config strategies :
  Forall (fun s => priority s <= getSensitivityMaxPriority config)
         (filterStrategiesBySensitivity config strategies)
  /\ StronglySorted priority_le (filterStrategiesBySensitivity config strategies).
Proof.
  unfold filterStrategiesBySensitivity. split.
  - apply sort_by_priority_Forall, List.Forall_forall.
    intros s Hs. apply List.filter_In in Hs. destruct Hs as [_ Hs].
    now apply Z.leb_le.
  - apply sort_by_priority_sorted.
Qed.

(** The six strategies by sensitivity and hint. *)
Lemma getHealingStrategies_eq h config sel hint :
  getHealingStrategies h config sel hint
  = [getAttributeStrategy sel]
    ++ (match hint with Some t => [getSemanticStrategy t] | None => [] end)
    ++ (match sensitivity config with
        | low => []
        | medium =>
            [getTextStrategy h sel; getStructuralStrategy config sel]
        | high =>
            [getTextStrategy h sel; getStructuralStrategy config sel;
             getRoleStrategy hint; getFuzzyMatchingStrategy sel]
        end).
Proof.
  unfold getHealingStrategies, filterStrategiesBySensitivity,
    getSensitivityMaxPriority.
  destruct (sensitivity config), hint; reflexivity.
Qed.


(** The strategies the resolver tries are the generated ones within
    the ceiling of the sensitivity, in the order of their generation. *)
Lemma getHealingStrategies_permitted h config sel hint :
  getHealingStrategies h config sel hint = permittedStrategies h config sel hint.
Proof.
  rewrite getHealingStrategies_eq.
  unfold permittedStrategies, generatedStrategies, sensitivityCeiling.
  destruct (sensitivity config), hint; reflexivity.
Qed.


(** C2. For every selector, hint and sensitivity, the strategies the
    resolver tries all have a priority no greater than the ceiling of
    the sensitivity (low 2, medium 4, high 6), and they come in
    ascending order of priority. *)
Theorem tried_strategies_within_ceiling_ascending :
  forall h config sel hint,
    let tried := getHealingStrategies h config sel hint in
    let ceiling := match sensitivity config with
                   | low => 2 | medium => 4 | high => 6 end in
    getSensitivityMaxPriority config = ceiling
    /\ Forall (fun s => priority s <= ceiling) tried
    /\ StronglySorted (fun a b => priority a <= priority b) tried.
Proof.
  intros h config sel hint tried ceiling.
  assert (E : getSensitivityMaxPriority config = ceiling) by reflexivity.
  split; [exact E |]. rewrite <- E.
  exact (filterStrategiesBySensitivity_ok config _).
Qed.

(** C5, as the code has it. For every original selector the attribute
    strategy has priority 1 and produces exactly 28 candidates when an
    identifier can be extracted, the seven attributes id, name,
    data-testid, data-cy, data-test, class, aria-label each combined
    with the four operators =, *=, ^=, $=, and no candidate when no
    identifier can be extracted. *)
Theorem attribute_strategy_28_or_none :
  forall sel,
    priority (getAttributeStrategy sel) = 1
    /\ match extractIdentifier sel with
       | Some identifier =>
           selectors (getAttributeStrategy sel)
           = List.flat_map
               (fun attr =>
                  List.map (fun op => attrSelector attr op identifier)
                    [js "="; js "*="; js "^="; js "$="])
               [js "id"; js "name"; js "data-testid"; js "data-cy";
                js "data-test"; js "class"; js "aria-label"]
           /\ List.length (selectors (getAttributeStrategy sel)) = 28%nat
       | None => selectors (getAttributeStrategy sel) = []
       end.
Proof.
  intros sel. split; [reflexivity |].
  unfold getAttributeStrategy.
  destruct (extractIdentifier sel) as [identifier|]; cbn [selectors].
  - split; reflexivity.
  - reflexivity.
Qed.

(** C5 as stated fails: [#submit-btn] has the identifier [submit-btn],
    and its attribute strategy has 28 candidates, not 24. *)
Lemma attribute_strategy_not_24 :
  ~ (forall sel identifier,
       extractIdentifier sel = Some identifier ->
       List.length (selectors (getAttributeStrategy sel)) = 24%nat).
Proof.
  intros H.
  specialize (H (js "#submit-btn") (js "submit-btn") eq_refl).
  vm_compute in H. discriminate H.
Qed.

(** ** First match is least key *)

Section FirstMatch.
Variables (h : Host) (k : Z).

Lemma searchSelectors_Hit p : forall sels i0 s,
  searchSelectors h k sels = Hit s ->
  exists pre post i,
    indexed p i0 sels = pre ++ (p, i, s) :: post
    /\ findError h s = None
    /\ matches (bodyFind h k) s = true
    /\ Forall (quiet h k) pre.
Proof.
  induction sels as [|x rest IH]; intros i0 s; cbn [searchSelectors indexed].
  - discriminate.
  - destruct (findError h x) as [m|] eqn:E; [discriminate |].
    destruct (matches (bodyFind h k) x) eqn:M.
    + intros [= <-]. exists [], (indexed p (S i0) rest), i0.
      split; [reflexivity |]. split; [assumption |]. split; [assumption |].
      constructor.
    + intros F. destruct (IH (S i0) s F) as (pre & post & i & El & Es & Ms & Hpre).
      exists ((p, i0, x) :: pre), post, i. rewrite El.
      split; [reflexivity |]. split; [assumption |]. split; [assumption |].
      constructor; [split; assumption | assumption].
Qed.

Lemma searchSelectors_Raised p : forall sels i0 m,
  searchSelectors h k sels = Raised m ->
  exists pre post i s,
    indexed p i0 sels = pre ++ (p, i, s) :: post
    /\ findError h s = Some m
    /\ Forall (quiet h k) pre.
Proof.
  induction sels as [|x rest IH]; intros i0 m; cbn [searchSelectors indexed].
  - discriminate.
  - destruct (findError h x) as [m'|] eqn:E.
    + intros [= <-]. exists [], (indexed p (S i0) rest), i0, x.
      split; [reflexivity |]. split; [assumption | constructor].
    + destruct (matches (bodyFind h k) x) eqn:M; [discriminate |].
      intros F. destruct (IH (S i0) m F) as (pre & post & i & s & El & Es & Hpre).
      exists ((p, i0, x) :: pre), post, i, s. rewrite El.
      split; [reflexivity |]. split; [assumption |].
      constructor; [split; assumption | assumption].
Qed.

Lemma searchSelectors_Miss p : forall sels i0,
  searchSelectors h k sels = Miss <-> Forall (quiet h k) (indexed p i0 sels).
Proof.
  induction sels as [|x rest IH]; intros i0; cbn [searchSelectors indexed].
  - split; [constructor | reflexivity].
  - destruct (findError h x) as [m|] eqn:E.
    + split; [discriminate |].
      intros H. inversion H as [|? ? [Hx _] _]. cbn [cand_selector snd] in Hx.
      congruence.
    + destruct (matches (bodyFind h k) x) eqn:M; split.
      * discriminate.
      * intros H. inversion H as [|? ? [_ Hx] _]. cbn [cand_selector snd] in Hx.
        congruence.
      * intros F. constructor; [split; assumption | now apply IH].
      * intros H. inversion H. now apply (IH (S i0)).
Qed.

Lemma searchStrategies_Hit : forall strategies st s,
  searchStrategies h k strategies = Hit (st, s) ->
  exists pre post i,
    candidates strategies = pre ++ (priority st, i, s) :: post
    /\ findError h s = None
    /\ matches (bodyFind h k) s = true
    /\ Forall (quiet h k) pre.
Proof.
  induction strategies as [|x rest IH]; intros st s; cbn [searchStrategies].
  - discriminate.
  - unfold candidates. cbn [List.flat_map]. fold (candidates rest).
    destruct (searchSelectors h k (selectors x)) as [s'| |m] eqn:F.
    + intros [= <- <-].
      destruct (searchSelectors_Hit (priority x) _ 0%nat _ F)
        as (pre & post & i & E & Es & M & Hpre).
      exists pre, (post ++ candidates rest), i. rewrite E.
      rewrite <- app_assoc. repeat split; assumption.
    + intros H. destruct (IH st s H) as (pre & post & i & E & Es & M & Hpre).
      exists (indexed (priority x) 0 (selectors x) ++ pre), post, i.
      rewrite E, <- app_assoc.
      split; [reflexivity |]. split; [assumption |]. split; [assumption |].
      apply List.Forall_app. split; [| assumption].
      now apply (searchSelectors_Miss (priority x)).
    + discriminate.
Qed.

Lemma searchStrategies_Raised : forall strategies m,
  searchStrategies h k strategies = Raised m ->
  exists pre c post,
    candidates strategies = pre ++ c :: post
    /\ findError h (cand_selector c) = Some m
    /\ Forall (quiet h k) pre.
Proof.
  induction strategies as [|x rest IH]; intros m; cbn [searchStrategies].
  - discriminate.
  - unfold candidates. cbn [List.flat_map]. fold (candidates rest).
    destruct (searchSelectors h k (selectors x)) as [s'| |m'] eqn:F.
    + discriminate.
    + intros H. destruct (IH m H) as (pre & c & post & E & Es & Hpre).
      exists (indexed (priority x) 0 (selectors x) ++ pre), c, post.
      rewrite E, <- app_assoc.
      split; [reflexivity |]. split; [assumption |].
      apply List.Forall_app. split; [| assumption].
      now apply (searchSelectors_Miss (priority x)).
    + intros [= <-].
      destruct (searchSelectors_Raised (priority x) _ 0%nat _ F)
        as (pre & post & i & s & E & Es & Hpre).
      exists pre, (priority x, i, s), (post ++ candidates rest). rewrite E.
      rewrite <- app_assoc. repeat split; assumption.
Qed.

Lemma searchStrategies_Miss : forall strategies,
  searchStrategies h k strategies = Miss
  <-> Forall (quiet h k) (candidates strategies).
Proof.
  induction strategies as [|x rest IH]; cbn [searchStrategies].
  - split; [constructor | reflexivity].
  - unfold candidates. cbn [List.flat_map]. fold (candidates rest).
    rewrite List.Forall_app.
    rewrite <- (searchSelectors_Miss (priority x) (selectors x) 0), <- IH.
    destruct (searchSelectors h k (selectors x)); split.
    + discriminate.
    + intros [H _]. discriminate H.
    + intros H. split; [reflexivity | assumption].
    + intros [_ H]. assumption.
    + discriminate.
    + intros [H _]. discriminate H.
Qed.



End FirstMatch.








(** ** The resolver *)

Lemma silentAt_nothingMatches h config sel hint k :
  silentAt h config sel hint k -> nothingMatches h config sel hint k.
Proof.
  intros [M H]. split; [assumption |].
  rewrite getHealingStrategies_permitted.
  apply searchStrategies_Miss, List.Forall_forall. exact H.
Qed.

Lemma waits_app a b : waits (a ++ b) = waits a ++ waits b.
Proof.
  induction a as [|e a IH]; [reflexivity |].
  destruct e; cbn [app waits]; rewrite ?IH; reflexivity.
Qed.

Lemma waits_probes l : waits (List.map BodyFind l) = [].
Proof. induction l; [reflexivity | assumption]. Qed.

Lemma waits_probingEffects h config sel hint k :
  waits (probingEffects h config sel hint k) = [].
Proof. unfold probingEffects. rewrite waits_app, waits_probes. reflexivity. Qed.


(** C4. A selector that matches on the first body is returned at
    once: the resolver queries the body, probes the selector and hands
    back its chainable, or, with healing disabled, hands back the
    chainable alone.  The generator is not called, no candidate is
    probed, nothing is waited for, and the healing log is unchanged. *)
Theorem matching_selector_returns_without_healing :
  forall h config sel hint st,
    (0 < bodyFind h 1 sel)%nat ->
    findElement h config sel hint st
    = (Some (Yield sel),
       {| healingLogs := healingLogs st;
          effects := effects st
            ++ (if enabled config
                then [CyGetBody; BodyFind sel; CyGet sel]
                else [CyGet sel]) |}).
Proof.
  intros h config sel hint st M. unfold findElement.
  destruct (enabled config); cbn [negb].
  - apply attemptFind_fast. unfold matches. now apply Nat.ltb_lt.
  - cy_step. reflexivity.
Qed.


(** C10. With healing disabled, finding an element is the plain query
    of the original selector, for the resolver of [AutoHealing] and for
    the [getWithHealing] command alike: the chainable of the selector
    is handed back, without a probe, a generated strategy, a wait or a
    healing-log record, whether the selector matches or not. *)
Theorem disabled_healing_is_plain_query :
  forall h config sel hint st,
    enabled config = false ->
    findElement h config sel hint st = plainQuery sel st
    /\ Commands.getWithHealing h (Some config) sel st = plainQuery sel st
    /\ plainQuery sel st
       = (Some (Yield sel),
          {| healingLogs := healingLogs st; effects := effects st ++ [CyGet sel] |}).
Proof.
  intros h config sel hint st Dis.
  unfold findElement, Commands.getWithHealing, plainQuery.
  rewrite Dis. cbn [negb]. repeat split.
Qed.

(** The delay before the retry after attempt [attempt]: the doubled
    base capped at five seconds, exceeded by at most a tenth. *)
Lemma getRetryDelay_bounds attempt r :
  (0 <= r)%Q -> (r < 1)%Q ->
  let delay := Qmin (1000 * Qpower 2 (attempt - 1)) 5000 in
  (delay <= getRetryDelay attempt r)%Q
  /\ (getRetryDelay attempt r <= delay + (1 # 10) * delay)%Q.
Proof.
  intros R0 R1 delay. unfold getRetryDelay. fold delay.
  assert (P : (0 < delay)%Q).
  { unfold delay, Qmin.
    assert (0 < Qpower 2 (attempt - 1))%Q by (apply Qpower_0_lt; reflexivity).
    destruct (Qle_bool _ _); lra. }
  split; nra.
Qed.


(** C9, as the code has it. Strategy generation is a function of the
    original selector, the element-type hint and the configured
    sensitivity, and of nothing else: two instances with the same
    sensitivity, whatever their other settings and whatever the DOM,
    the clock and the random source of their hosts, generate the same
    strategies for the same selector and hint. *)
Theorem strategies_depend_on_selector_hint_sensitivity :
  forall h1 h2 c1 c2 sel hint,
    (forall s, toLowerCase h1 s = toLowerCase h2 s) ->
    (forall s, toUpperCase h1 s = toUpperCase h2 s) ->
    sensitivity c1 = sensitivity c2 ->
    getHealingStrategies h1 c1 sel hint = getHealingStrategies h2 c2 sel hint.
Proof.
  intros h1 h2 c1 c2 sel hint Lo Up Se.
  rewrite !getHealingStrategies_eq.
  assert (T : getTextStrategy h1 sel = getTextStrategy h2 sel).
  { unfold getTextStrategy, capitalizeFirst.
    destruct (extractIdentifier sel); [| reflexivity].
    now rewrite !Lo, !Up. }
  assert (St : getStructuralStrategy c1 sel = getStructuralStrategy c2 sel).
  { unfold getStructuralStrategy. now rewrite Se. }
  now rewrite T, St, Se.
Qed.

(** ** Visual comparison *)

Lemma vbind_run {A B} (m : Visual.VCy A) (k : A -> Visual.VCy B) st :
  (m ≫= k) st = k (fst (m st)) (snd (m st)).
Proof. unfold mbind, Visual.vcy_bind. now destruct (m st). Qed.

Lemma vemit_run e st : Visual.vemit e st = (tt, addLog st [e]).
Proof. reflexivity. Qed.

Lemma vret_run {A} (a : A) st : Visual.vret a st = (a, st).
Proof. reflexivity. Qed.

Lemma onFiles_run {A} (handler : Visual.FS -> A * Visual.FS) st :
  Visual.onFiles handler st
  = (fst (handler (Visual.fs st)),
     {| Visual.fs := snd (handler (Visual.fs st));
        Visual.testResults := Visual.testResults st;
        Visual.log := Visual.log st |}).
Proof. unfold Visual.onFiles. now destruct (handler (Visual.fs st)). Qed.

Ltac vcy_step :=
  repeat (rewrite ?vbind_run, ?vemit_run, ?onFiles_run, ?vret_run;
          cbn [fst snd Visual.fs Visual.testResults Visual.log addLog]).

Lemma readFile_run path st :
  Visual.readFile path st
  = (match Visual.fs st !! path with
     | None => Visual.Failed (Visual.FileNotFound path)
     | Some _ => Visual.Returned (Visual.baselineExists (Visual.fs st) path)
     end,
     addLog st [Visual.ReadFile path]).
Proof. unfold Visual.readFile. vcy_step. reflexivity. Qed.

Lemma baselineExists_file files path :
  Visual.baselineExists files path = true ->
  exists file, files !! path = Some file.
Proof.
  unfold Visual.baselineExists. destruct (files !! path); [eauto | discriminate].
Qed.

(** The verdict of the callback on a result with a count. *)
Lemma onCompareResult_compared n config name count path st :
  fst (Visual.onCompareResult n config name
         (Visual.Compared (count =? 0) count path) st)
  = if count =? 0 then Visual.Returned tt
    else if PrimFloat.ltb (Visual.threshold config * 1000)%float
              (Visual.float_of_Z count)
         then Visual.Failed
                (Visual.Error (js "Visual regression detected in " ++ name))
         else Visual.Returned tt.
Proof.
  unfold Visual.onCompareResult, Visual.exceeds.
  cbn [Visual.passed Visual.diffPixels].
  unfold mbind, Visual.vcy_bind, Visual.vret, mret, Visual.vcy_ret, Visual.vemit.
  destruct (count =? 0); cbn [negb fst snd];
    destruct (Visual.allure n);
    destruct (PrimFloat.ltb (Visual.threshold config * 1000)%float
                (Visual.float_of_Z count));
    reflexivity.
Qed.

(** C7. Let the baseline and the actual image of a snapshot be
    images the diff routine accepts (it rejects data of different
    sizes), differing in [count] pixels, and let the diff image be
    written.  The result of the [compareImages] task has [passed] true
    exactly when [count] is 0, whatever the threshold.  The caller,
    [compareSnapshot], fails the test only when [count] exceeds the
    threshold times 1000, the product being the double the source
    computes, and does fail it when a count other than 0 exceeds that
    bound; so a count between the two is reported as not passed without
    failing the test. *)
Theorem passed_iff_no_diff_and_caller_cutoff :
  forall n config name st b a count diffData,
    Visual.enabled config = true ->
    let files := Visual.takeScreenshot n (js "actual/" ++ name) (Visual.fs st) in
    let baselinePath := js "cypress/screenshots/baseline/" ++ name ++ js ".png" in
    let actualPath := js "cypress/screenshots/actual/" ++ name ++ js ".png" in
    files !! baselinePath = Some (Visual.PngFile b) ->
    files !! actualPath = Some (Visual.PngFile a) ->
    Visual.pixelmatch n (Visual.data b) (Visual.data a) (Visual.width b)
      (Visual.height b) (Visual.threshold (Visual.taskConfig n))
    = inr (count, diffData) ->
    Visual.writeFileError n (diffPathOf n (Visual.taskConfig n) actualPath)
    = None ->
    let result :=
      fst (Visual.compareImages n (Visual.taskConfig n) files
             baselinePath actualPath) in
    let verdict := fst (Visual.compareSnapshot n (Some config) name st) in
    let over :=
      PrimFloat.ltb (Visual.threshold config * 1000)%float
        (Visual.float_of_Z count) in
    Visual.diffPixels result = Some count
    /\ (Visual.passed result = true <-> count = 0)
    /\ ((exists f, verdict = Visual.Failed f) -> over = true)
    /\ (count <> 0 -> over = false ->
        Visual.passed result = false /\ verdict = Visual.Returned tt)
    /\ (count <> 0 -> over = true ->
        verdict = Visual.Failed
                    (Visual.Error (js "Visual regression detected in " ++ name))).
Proof.
  intros n config name st b a count diffData En files baselinePath actualPath
    Hb Ha Hp Hw result verdict over.
  assert (C : Visual.compareImages n (Visual.taskConfig n) files
                baselinePath actualPath
              = (Visual.Compared (count =? 0) count
                   (Some (diffPathOf n (Visual.taskConfig n) actualPath)),
                 <[diffPathOf n (Visual.taskConfig n) actualPath
                   := Visual.PngFile
                        {| Visual.width := Visual.width b;
                           Visual.height := Visual.height b;
                           Visual.data := diffData |}]> files)).
  { unfold Visual.compareImages, Visual.readPng.
    rewrite Hb, Ha, Hp. fold (diffPathOf n (Visual.taskConfig n) actualPath).
    rewrite Hw. reflexivity. }
  assert (V : verdict
              = if count =? 0 then Visual.Returned tt
                else if over
                     then Visual.Failed
                            (Visual.Error (js "Visual regression detected in "
                                           ++ name))
                     else Visual.Returned tt).
  { unfold verdict, Visual.compareSnapshot. rewrite En. cbn [negb].
    vcy_step. rewrite readFile_run. cbn [fst snd Visual.fs addLog].
    fold files baselinePath actualPath. rewrite Hb.
    unfold Visual.baselineExists. rewrite Hb. cbn [negb]. vcy_step.
    rewrite C. apply onCompareResult_compared. }
  unfold result. rewrite C, V. cbn [fst Visual.passed Visual.diffPixels].
  split; [reflexivity |]. split; [apply Z.eqb_eq |].
  split; [| split].
  - intros [f Hf]. destruct (count =? 0); [discriminate Hf |].
    destruct over; [reflexivity | discriminate Hf].
  - intros Hc Ho. apply Z.eqb_neq in Hc. rewrite Hc, Ho. split; reflexivity.
  - intros Hc Ho. apply Z.eqb_neq in Hc. now rewrite Hc, Ho.
Qed.

(** With no file at the baseline path, [cy.readFile] fails the command
    before [performImageComparison] looks at a value. *)
Lemma performImageComparison_missing_baseline
    n config name baselinePath actualPath options st :
  Visual.fs st !! baselinePath = None ->
  Visual.performImageComparison n config name baselinePath actualPath options st
  = (Visual.Failed (Visual.FileNotFound baselinePath),
     addLog st [Visual.ReadFile baselinePath]).
Proof.
  intros Hb. unfold Visual.performImageComparison.
  rewrite vbind_run, readFile_run, Hb. cbn [fst snd]. now rewrite vret_run.
Qed.

(** With an empty file at the baseline path, the first-run branch is
    taken, and the runner rejects its [copyFile] task. *)
Lemma performImageComparison_empty_baseline
    n config name baselinePath actualPath options st file :
  Visual.fs st !! baselinePath = Some file ->
  Visual.baselineExists (Visual.fs st) baselinePath = false ->
  Visual.performImageComparison n config name baselinePath actualPath options st
  = (Visual.Failed (Visual.TaskRejected (js "copyFile")),
     addLog st (firstRunEffects name baselinePath actualPath)).
Proof.
  intros Hf Hb. unfold Visual.performImageComparison.
  rewrite vbind_run, readFile_run, Hf, Hb. cbn [fst snd negb].
  unfold Visual.taskWithoutHandler.
  change (Visual.registered (js "copyFile")) with false.
  vcy_step. unfold firstRunEffects, addLog.
  cbn [Visual.fs Visual.testResults Visual.log].
  rewrite <- !app_assoc. reflexivity.
Qed.

(** C8, as the code has it. When there is no baseline image at the
    baseline path, no file or an empty one, [performImageComparison]
    fails: on the read of the missing file, or, the file being empty,
    on the [copyFile] task, which is not registered.  It writes no
    baseline, hands back no result and records none. *)
Theorem missing_baseline_fails_and_writes_nothing :
  forall n config name baselinePath actualPath options st,
    Visual.baselineExists (Visual.fs st) baselinePath = false ->
    let run :=
      Visual.performImageComparison n config name baselinePath actualPath
        options st in
    fst run
    = Visual.Failed
        (match Visual.fs st !! baselinePath with
         | None => Visual.FileNotFound baselinePath
         | Some _ => Visual.TaskRejected (js "copyFile")
         end)
    /\ Visual.fs (snd run) = Visual.fs st
    /\ Visual.testResults (snd run) = Visual.testResults st.
Proof.
  intros n config name baselinePath actualPath options st Hb run. unfold run.
  destruct (Visual.fs st !! baselinePath) as [file|] eqn:Hf.
  - rewrite (performImageComparison_empty_baseline _ _ _ _ _ _ _ file Hf Hb).
    repeat split.
  - rewrite (performImageComparison_missing_baseline _ _ _ _ _ _ _ Hf).
    repeat split.
Qed.

(** ** Worked scenarios *)



Lemma parsed_None h s : parsed h s = true -> findError h s = None.
Proof. unfold parsed. now destruct (findError h s). Qed.

Lemma quietb_quiet h k c : quietb h k c = true -> quiet h k c.
Proof.
  unfold quietb, quiet. intros H. apply andb_prop in H. destruct H as [P M].
  split; [now apply parsed_None | now apply negb_true_iff].
Qed.

Lemma silentAt_check h config sel hint k :
  matches (bodyFind h k) sel = false ->
  List.forallb (quietb h k) (permittedCandidates h config sel hint) = true ->
  silentAt h config sel hint k.
Proof.
  intros M H. split; [assumption |]. intros c Hc.
  rewrite List.forallb_forall in H. now apply quietb_quiet, H.
Qed.




(** [#submit-btn] is on the page. *)
Lemma present_button_returned_at_once :
  findElement (pageWith [submitBtn]) (configWith true medium 3)
    submitBtn (Some button) freshRun
  = (Some (Yield submitBtn),
     {| healingLogs := [];
        effects := [CyGetBody; BodyFind submitBtn; CyGet submitBtn] |}).
Proof.
  apply (matching_selector_returns_without_healing
           (pageWith [submitBtn]) (configWith true medium 3)
           submitBtn (Some button) freshRun).
  vm_compute. lia.
Defined.




(** Healing switched off, on an empty page. *)
Lemma disabled_on_empty_page :
  findElement (pageWith []) (configWith false high 3) submitBtn None freshRun
  = plainQuery submitBtn freshRun
  /\ Commands.getWithHealing (pageWith []) (Some (configWith false high 3))
       submitBtn freshRun
     = plainQuery submitBtn freshRun
  /\ plainQuery submitBtn freshRun
     = (Some (Yield submitBtn),
        {| healingLogs := []; effects := [] ++ [CyGet submitBtn] |}).
Proof.
  apply (disabled_healing_is_plain_query
           (pageWith []) (configWith false high 3) submitBtn None freshRun).
  reflexivity.
Defined.

(** C9 as stated fails: the same selector and hint give other
    strategies at low sensitivity than at high. *)
Lemma strategies_vary_with_sensitivity :
  ~ (forall h c1 c2 sel hint,
       getHealingStrategies h c1 sel hint = getHealingStrategies h c2 sel hint).
Proof.
  intros H.
  specialize (H (pageWith []) (configWith true low 3) (configWith true high 3)
                submitBtn None).
  apply (f_equal (@List.length HealingStrategy)) in H.
  vm_compute in H. discriminate H.
Qed.

(** Two instances that differ in all but the sensitivity. *)
Lemma same_sensitivity_same_strategies :
  getHealingStrategies (pageWith []) (configWith true high 3) submitBtn (Some button)
  = getHealingStrategies (pageWith [submitBtn]) (configWith false high 0)
      submitBtn (Some button).
Proof.
  apply (strategies_depend_on_selector_hint_sensitivity
           (pageWith []) (pageWith [submitBtn])
           (configWith true high 3) (configWith false high 0)
           submitBtn (Some button)).
  - intros s; reflexivity.
  - intros s; reflexivity.
  - reflexivity.
Defined.

(** Fifty differing pixels under a threshold of one tenth: not passed,
    yet below the caller's bound of a hundred. *)
Lemma fifty_pixels_not_passed_not_failed :
  let result :=
    fst (Visual.compareImages scenarioNode scenarioVisual bothFiles
           baselineHome actualHome) in
  let verdict :=
    fst (Visual.compareSnapshot scenarioNode (Some scenarioVisual) (js "home")
           (freshVisual bothFiles)) in
  Visual.passed result = false /\ verdict = Visual.Returned tt.
Proof.
  apply (passed_iff_no_diff_and_caller_cutoff
           scenarioNode scenarioVisual (js "home") (freshVisual bothFiles)
           (flat 0) (flat 255) 50 (List.repeat 0%N 50)).
  - reflexivity.
  - vm_compute. reflexivity.
  - vm_compute. reflexivity.
  - vm_compute. reflexivity.
  - reflexivity.
  - discriminate.
  - vm_compute. reflexivity.
Defined.

(** The bound is the product as doubles compute it: the double of 0.3
    times 1000 is 300, which 300 pixels do not exceed and 301 do. *)
Lemma cutoff_is_the_double_product :
  Visual.exceeds (Some 300) (0.3 * 1000)%float = false
  /\ Visual.exceeds (Some 301) (0.3 * 1000)%float = true.
Proof. split; reflexivity. Qed.

(** A first run, the actual image on disk and no baseline: the
    comparison fails on the read, and no baseline is written. *)
Lemma first_run_fails_on_missing_baseline :
  let run :=
    Visual.performImageComparison scenarioNode scenarioVisual (js "home")
      baselineHome actualHome
      {| Visual.opt_threshold := None; Visual.failOnDifference := None |}
      (freshVisual actualOnly) in
  fst run = Visual.Failed (Visual.FileNotFound baselineHome)
  /\ Visual.fs (snd run) = actualOnly
  /\ Visual.testResults (snd run) = [].
Proof.
  apply (missing_baseline_fails_and_writes_nothing
           scenarioNode scenarioVisual (js "home") baselineHome actualHome
           {| Visual.opt_threshold := None; Visual.failOnDifference := None |}
           (freshVisual actualOnly)).
  vm_compute. reflexivity.
Defined.

(** ** Identifiers *)

Lemma take_while_stop p (a rest : jsstring) :
  List.forallb p a = true -> stops p rest = true ->
  take_while p (a ++ rest) = a.
Proof.
  intros Ha Hr. induction a as [|c a IH]; cbn [app].
  - destruct rest as [|c rest]; [reflexivity |].
    cbn [stops] in Hr. cbn [take_while].
    destruct (p c); [discriminate Hr | reflexivity].
  - cbn [List.forallb] in Ha. apply andb_prop in Ha. destruct Ha as [Hc Ha].
    cbn [take_while]. rewrite Hc, (IH Ha). reflexivity.
Qed.

Lemma truthy_nonempty (s : jsstring) : s <> [] -> truthy s = true.
Proof. destruct s; [congruence | reflexivity]. Qed.

Lemma truthy_true (s : jsstring) : truthy s = true -> s <> [].
Proof. destruct s; [discriminate | discriminate]. Qed.

Lemma match_marker_run_absent marker excluded (s : jsstring) :
  List.forallb (fun c => negb (c =? marker)%N) s = true ->
  match_marker_run marker excluded s = None.
Proof.
  induction s as [|c s IH]; [reflexivity |].
  cbn [List.forallb match_marker_run]. intros H.
  apply andb_prop in H. destruct H as [Hc Hs].
  apply negb_true_iff in Hc. rewrite Hc. cbn [andb]. exact (IH Hs).
Qed.

Lemma match_marker_run_truthy marker excluded : forall (s run : jsstring),
  match_marker_run marker excluded s = Some run -> truthy run = true.
Proof.
  induction s as [|c s IH]; intros run; cbn [match_marker_run].
  - discriminate.
  - destruct ((c =? marker)%N
              && truthy (take_while (fun x => negb (excluded x)) s)) eqn:E.
    + intros [= <-]. now apply andb_prop in E.
    + apply IH.
Qed.

Lemma quoted_value_truthy closing (s v : jsstring) :
  quoted_value closing s = Some v -> truthy v = true.
Proof.
  unfold quoted_value.
  destruct (truthy (take_while (fun x => negb (is_quote x)) s)) eqn:E;
    cbn [andb]; [| discriminate].
  destruct (startsWith _ closing); [| discriminate].
  now intros [= <-].
Qed.

Lemma first_match_some (P : jsstring -> Prop) at_head :
  (forall s v, at_head s = Some v -> P v) ->
  forall s v, first_match at_head s = Some v -> P v.
Proof.
  intros H. induction s as [|c s IH]; intros v; cbn [first_match].
  - destruct (at_head []) eqn:E; [| discriminate].
    intros [= <-]. eapply H, E.
  - destruct (at_head (c :: s)) eqn:E.
    + intros [= <-]. eapply H, E.
    + apply IH.
Qed.

Lemma first_match_absent at_head (s : jsstring) :
  (forall t, at_head t <> None -> exists c rest, t = c :: rest /\ at_head (c :: rest) <> None) ->
  (forall c rest, List.In c s -> at_head (c :: rest) = None) ->
  first_match at_head s = None.
Proof.
  intros Hhead Hs. induction s as [|c s IH]; cbn [first_match].
  - destruct (at_head []) eqn:E; [| reflexivity].
    destruct (Hhead []) as (c & rest & Hc & _); [congruence | discriminate Hc].
  - rewrite (Hs c s) by now left. apply IH.
    intros c' rest Hin. apply Hs. now right.
Qed.

Lemma attr_at_needs_bracket c (rest : jsstring) :
  (c =? 91)%N = false -> attr_at (c :: rest) = None.
Proof. intros H. unfold attr_at. now rewrite H. Qed.

Lemma contains_at_needs_colon c (rest : jsstring) :
  (c =? 58)%N = false -> contains_at (c :: rest) = None.
Proof.
  intros H. unfold contains_at.
  change (js ":contains(" ++ dq) with (58%N :: List.tl (js ":contains(" ++ dq)).
  cbn [strip_prefix]. rewrite N.eqb_sym, H. reflexivity.
Qed.

(** X1. An identifier that [extractIdentifier] finds is never the
    empty string, so the test [if (identifier)] of the strategies is
    the test that one was found. *)
Theorem extractIdentifier_nonempty :
  forall sel identifier,
    extractIdentifier sel = Some identifier -> identifier <> [].
Proof.
  intros sel identifier. unfold extractIdentifier.
  destruct (match_marker_run 35 _ sel) eqn:E1.
  { intros [= <-]. eapply truthy_true, match_marker_run_truthy, E1. }
  destruct (match_marker_run 46 _ sel) eqn:E2.
  { intros [= <-]. eapply truthy_true, match_marker_run_truthy, E2. }
  destruct (first_match attr_at sel) eqn:E3.
  { intros [= <-]. apply truthy_true.
    apply (first_match_some (fun v => truthy v = true) attr_at) with (s := sel);
      [| exact E3].
    intros s v. unfold attr_at. destruct s as [|c rest]; [discriminate |].
    destruct ((c =? 91)%N && _); [| discriminate].
    destruct (strip_prefix _ _); [| discriminate].
    apply quoted_value_truthy. }
  intros E4. apply truthy_true.
  apply (first_match_some (fun v => truthy v = true) contains_at) with (s := sel);
    [| exact E4].
  intros s v. unfold contains_at.
  destruct (strip_prefix _ s); [| discriminate].
  apply quoted_value_truthy.
Qed.

Lemma extractIdentifier_submit :
  js "submit-btn" <> [].
Proof.
  apply (extractIdentifier_nonempty (js "#submit-btn") (js "submit-btn")).
  vm_compute. reflexivity.
Defined.

(** X2. The identifier of an id selector is read back: a hash, a
    non-empty run free of dots, whitespace and opening brackets, and a
    rest that is empty or begins with one of those give that run. *)
Theorem extractIdentifier_of_id :
  forall identifier rest,
    identifier <> [] ->
    List.forallb id_char identifier = true ->
    stops id_char rest = true ->
    extractIdentifier (js "#" ++ identifier ++ rest) = Some identifier.
Proof.
  intros identifier rest Hne Hid Hrest.
  change (js "#") with [35%N]. cbn [app].
  unfold extractIdentifier. cbn [match_marker_run]. cbn [N.eqb Pos.eqb andb].
  fold id_char.
  change (fun x : N => negb ((x =? 46)%N || is_space x || (x =? 91)%N))
    with id_char.
  rewrite (take_while_stop id_char identifier rest Hid Hrest).
  now rewrite (truthy_nonempty identifier Hne).
Qed.

Lemma extractIdentifier_of_id_with_class :
  extractIdentifier (js "#" ++ js "submit-btn" ++ js ".primary")
  = Some (js "submit-btn").
Proof.
  apply (extractIdentifier_of_id (js "submit-btn") (js ".primary")).
  - discriminate.
  - vm_compute. reflexivity.
  - vm_compute. reflexivity.
Defined.

(** X3. The identifier of a class selector is read back: a dot, a
    non-empty run free of hashes, whitespace and opening brackets, and
    a rest without a hash that is empty or begins with whitespace or a
    bracket give that run. *)
Theorem extractIdentifier_of_class :
  forall cls rest,
    cls <> [] ->
    List.forallb class_char cls = true ->
    stops class_char rest = true ->
    List.forallb (fun c => negb (c =? 35)%N) rest = true ->
    extractIdentifier (js "." ++ cls ++ rest) = Some cls.
Proof.
  intros cls rest Hne Hcls Hrest Hhash.
  change (js ".") with [46%N]. cbn [app].
  unfold extractIdentifier.
  rewrite match_marker_run_absent.
  - cbn [match_marker_run]. cbn [N.eqb Pos.eqb andb].
    change (fun x : N => negb ((x =? 35)%N || is_space x || (x =? 91)%N))
      with class_char.
    rewrite (take_while_stop class_char cls rest Hcls Hrest).
    now rewrite (truthy_nonempty cls Hne).
  - cbn [List.forallb]. rewrite List.forallb_app, Hhash, andb_true_r.
    cbn [N.eqb Pos.eqb negb andb].
    rewrite List.forallb_forall in Hcls |- *. intros c Hc.
    specialize (Hcls c Hc). unfold class_char in Hcls.
    apply negb_true_iff in Hcls. apply orb_false_elim in Hcls.
    destruct Hcls as [Hcls _]. apply orb_false_elim in Hcls.
    destruct Hcls as [Hcls _]. now rewrite Hcls.
Qed.

Lemma extractIdentifier_of_class_with_attr :
  extractIdentifier (js "." ++ js "nav-menu" ++ js " a") = Some (js "nav-menu").
Proof.
  apply (extractIdentifier_of_class (js "nav-menu") (js " a")).
  - discriminate.
  - vm_compute. reflexivity.
  - vm_compute. reflexivity.
  - vm_compute. reflexivity.
Defined.

(** X4. A selector without a hash, dot, opening bracket or colon,
    a tag name or a combination of tag names, has no identifier; its
    attribute, text and fuzzy strategies then have no candidate. *)
Theorem plain_selector_has_no_identifier :
  forall h sel,
    List.forallb plain_char sel = true ->
    extractIdentifier sel = None
    /\ selectors (getAttributeStrategy sel) = []
    /\ selectors (getTextStrategy h sel) = []
    /\ selectors (getFuzzyMatchingStrategy sel) = [].
Proof.
  intros h sel Hp.
  assert (Hc : forall c, List.In c sel ->
             (c =? 35)%N = false /\ (c =? 46)%N = false
             /\ (c =? 91)%N = false /\ (c =? 58)%N = false).
  { rewrite List.forallb_forall in Hp. intros c Hin.
    specialize (Hp c Hin). unfold plain_char in Hp.
    apply negb_true_iff in Hp.
    repeat (apply orb_false_elim in Hp; destruct Hp as [Hp ?]). auto. }
  assert (E : extractIdentifier sel = None).
  { unfold extractIdentifier.
    rewrite !match_marker_run_absent.
    - rewrite first_match_absent.
      + apply first_match_absent.
        * intros t Ht. destruct t as [|c rest]; [| eauto].
          exfalso. apply Ht. reflexivity.
        * intros c rest Hin. apply contains_at_needs_colon. now apply Hc.
      + intros t Ht. destruct t as [|c rest]; [| eauto].
        exfalso. apply Ht. reflexivity.
      + intros c rest Hin. apply attr_at_needs_bracket. now apply Hc.
    - rewrite List.forallb_forall. intros c Hin.
      destruct (Hc c Hin) as (_ & H & _). now rewrite H.
    - rewrite List.forallb_forall. intros c Hin.
      destruct (Hc c Hin) as (H & _). now rewrite H. }
  unfold getAttributeStrategy, getTextStrategy, getFuzzyMatchingStrategy.
  rewrite E. repeat split.
Qed.

Lemma descendant_selector_has_no_identifier :
  extractIdentifier (js "div > span") = None
  /\ selectors (getAttributeStrategy (js "div > span")) = []
  /\ selectors (getTextStrategy (pageWith []) (js "div > span")) = []
  /\ selectors (getFuzzyMatchingStrategy (js "div > span")) = [].
Proof.
  apply (plain_selector_has_no_identifier (pageWith []) (js "div > span")).
  vm_compute. reflexivity.
Defined.

(** ** Sizes and orders of strategy lists *)

Lemma indexed_length p : forall sels i,
  List.length (indexed p i sels) = List.length sels.
Proof.
  induction sels as [|s rest IH]; intros i; cbn [indexed List.length];
    [reflexivity | now rewrite IH].
Qed.

Lemma candidates_cons st rest :
  List.length (candidates (st :: rest))
  = (List.length (selectors st) + List.length (candidates rest))%nat.
Proof.
  unfold candidates. cbn [List.flat_map].
  now rewrite List.length_app, indexed_length.
Qed.

Lemma attribute_size sel :
  (List.length (selectors (getAttributeStrategy sel)) <= 28)%nat.
Proof.
  unfold getAttributeStrategy. destruct (extractIdentifier sel);
    cbn [selectors List.flat_map app List.length]; lia.
Qed.

Lemma semantic_size t :
  (List.length (selectors (getSemanticStrategy t)) <= 5)%nat.
Proof. destruct t; cbn; lia. Qed.

Lemma text_size h sel :
  (List.length (selectors (getTextStrategy h sel)) <= 18)%nat.
Proof.
  unfold getTextStrategy. destruct (extractIdentifier sel);
    cbn [selectors List.flat_map app List.length]; lia.
Qed.

Lemma structural_size config sel :
  (List.length (selectors (getStructuralStrategy config sel))
   <= match sensitivity config with high => 16 | _ => 12 end)%nat.
Proof.
  unfold getStructuralStrategy. cbn [selectors]. rewrite !List.length_app.
  destruct (includes sel (js "form")),
           (includes sel (js "nav") || includes sel (js "menu")),
           (includes sel (js "table")), (sensitivity config);
    cbn [List.length]; lia.
Qed.

Lemma role_size hint :
  (List.length (selectors (getRoleStrategy hint)) <= 8)%nat.
Proof. destruct hint as [[]|]; cbn; lia. Qed.

Lemma fuzzy_size sel :
  (List.length (selectors (getFuzzyMatchingStrategy sel)) <= 5)%nat.
Proof.
  unfold getFuzzyMatchingStrategy. destruct (extractIdentifier sel) as [i|];
    [| cbn; lia].
  destruct (Js.length i >? 3); [| cbn; lia].
  cbn [selectors]. rewrite List.length_app.
  destruct (negb (Js.eqb (List.filter is_alnum i) i)); cbn [List.length]; lia.
Qed.

(** X5. One attempt probes a bounded number of candidates: the
    strategies of a sensitivity hold at most 33 candidates at low, 63
    at medium and 80 at high sensitivity, whatever the selector and the
    hint; [#form-nav-table] with the hint [container] reaches 80. *)
Theorem candidates_bounded_by_sensitivity :
  forall h config sel hint,
    (List.length (candidates (getHealingStrategies h config sel hint))
     <= candidateBound (sensitivity config))%nat
    /\ List.length
         (candidates (getHealingStrategies (pageWith []) (configWith true high 3)
                        (js "#form-nav-table") (Some container)))
       = 80%nat.
Proof.
  intros h config sel hint. split; [| vm_compute; reflexivity].
  rewrite getHealingStrategies_eq.
  pose proof (attribute_size sel) as A.
  pose proof (text_size h sel) as T.
  pose proof (structural_size config sel) as S.
  pose proof (role_size hint) as R.
  pose proof (fuzzy_size sel) as F.
  destruct (sensitivity config), hint as [t|];
    try pose proof (semantic_size t) as M;
    cbn [app candidateBound]; rewrite ?candidates_cons;
    change (List.length (candidates [])) with 0%nat; lia.
Qed.

(** X6. The priorities of the strategies the resolver tries are 1,
    then 2 when a hint is given, then 3 and 4 from medium sensitivity
    on, then 5 and 6 at high sensitivity: six strategies are tried only
    at high sensitivity with a hint, and one alone at low sensitivity
    without. *)
Theorem tried_priorities :
  forall h config sel hint,
    List.map priority (getHealingStrategies h config sel hint)
    = [1] ++ (match hint with Some _ => [2] | None => [] end)
      ++ (match sensitivity config with
          | low => []
          | medium => [3; 4]
          | high => [3; 4; 5; 6]
          end).
Proof.
  intros h config sel hint. rewrite getHealingStrategies_eq.
  destruct (sensitivity config), hint; reflexivity.
Qed.

Lemma insert_by_priority_perm s l :
  Permutation (s :: l) (insert_by_priority s l).
Proof.
  induction l as [|x l IH]; cbn [insert_by_priority]; [reflexivity |].
  destruct (priority s - priority x <=? 0); [reflexivity |].
  rewrite perm_swap. now apply perm_skip.
Qed.

Lemma sort_by_priority_perm l : Permutation l (sort_by_priority l).
Proof.
  induction l as [|x l IH]; cbn [sort_by_priority fold_right]; [reflexivity |].
  rewrite <- insert_by_priority_perm. now apply perm_skip.
Qed.

(** X7. Whatever list it is given, the sensitivity filter returns a
    rearrangement of the strategies within the ceiling: none of them is
    lost, none is doubled, and none above the ceiling slips in. *)
Theorem filterStrategiesBySensitivity_permutes :
  forall config strategies,
    Permutation (withinCeiling config strategies)
                (filterStrategiesBySensitivity config strategies).
Proof.
  intros config strategies. unfold filterStrategiesBySensitivity, withinCeiling.
  apply sort_by_priority_perm.
Qed.

Lemma insert_by_priority_front s l :
  Forall (priority_le s) l -> insert_by_priority s l = s :: l.
Proof.
  intros H. destruct l as [|x l]; [reflexivity |].
  cbn [insert_by_priority]. inversion H as [|? ? Hx _]. unfold priority_le in Hx.
  replace (priority s - priority x <=? 0) with true
    by (symmetry; apply Z.leb_le; lia).
  reflexivity.
Qed.

Lemma sort_by_priority_sorted_id l :
  StronglySorted priority_le l -> sort_by_priority l = l.
Proof.
  induction 1 as [|x l Hl IH Hx]; [reflexivity |].
  cbn [sort_by_priority fold_right]. fold (sort_by_priority l).
  rewrite IH. now apply insert_by_priority_front.
Qed.

Lemma filter_all {A} (p : A -> bool) l :
  Forall (fun x => p x = true) l -> List.filter p l = l.
Proof.
  induction 1 as [|x l Hx Hl IH]; [reflexivity |].
  cbn [List.filter]. now rewrite Hx, IH.
Qed.

(** X8. Filtering twice is filtering once: the sensitivity filter
    leaves its own output as it is. *)
Theorem filterStrategiesBySensitivity_idempotent :
  forall config strategies,
    filterStrategiesBySensitivity config
      (filterStrategiesBySensitivity config strategies)
    = filterStrategiesBySensitivity config strategies.
Proof.
  intros config strategies.
  destruct (filterStrategiesBySensitivity_ok config strategies) as [Hc Hs].
  unfold filterStrategiesBySensitivity at 1.
  rewrite filter_all.
  - now apply sort_by_priority_sorted_id.
  - eapply List.Forall_impl; [| exact Hc]. intros s Hsle. now apply Z.leb_le.
Qed.

Lemma withPriority_insert p s l :
  withPriority p (insert_by_priority s l) = withPriority p (s :: l).
Proof.
  unfold withPriority.
  induction l as [|x l IH]; cbn [insert_by_priority]; [reflexivity |].
  destruct (priority s - priority x <=? 0) eqn:E; [reflexivity |].
  apply Z.leb_gt in E. cbn [List.filter] in IH |- *. rewrite IH.
  destruct (priority x =? p) eqn:Ex, (priority s =? p) eqn:Es;
    try reflexivity.
  apply Z.eqb_eq in Ex, Es. lia.
Qed.

Lemma withPriority_sort p l :
  withPriority p (sort_by_priority l) = withPriority p l.
Proof.
  induction l as [|x l IH]; [reflexivity |].
  cbn [sort_by_priority fold_right]. fold (sort_by_priority l).
  rewrite withPriority_insert. unfold withPriority in *.
  cbn [List.filter]. now rewrite IH.
Qed.

(** X9. The sort of the sensitivity filter is stable: the strategies
    of one priority come out in the order they went in. *)
Theorem filterStrategiesBySensitivity_stable :
  forall config strategies p,
    withPriority p (filterStrategiesBySensitivity config strategies)
    = withPriority p (withinCeiling config strategies).
Proof.
  intros config strategies p. unfold filterStrategiesBySensitivity, withinCeiling.
  apply withPriority_sort.
Qed.

(** ** Delays, waits and the healing log *)

Lemma retry_base_window attempt :
  1 <= attempt ->
  let delay := Qmin (1000 * Qpower 2 (attempt - 1)) 5000 in
  (1000 <= delay)%Q /\ (delay <= 5000)%Q /\ (4 <= attempt -> (delay == 5000)%Q).
Proof.
  intros Ha delay.
  assert (P1 : (1 <= Qpower 2 (attempt - 1))%Q)
    by (apply Qpower_1_le; [lra | lia]).
  unfold delay, Qmin.
  destruct (Qle_bool (1000 * Qpower 2 (attempt - 1)) 5000) eqn:E.
  - apply Qle_bool_iff in E. split; [lra |]. split; [lra |].
    intros H4.
    assert (P8 : (Qpower 2 3 <= Qpower 2 (attempt - 1))%Q)
      by (apply Qpower_le_compat_l; [lia | lra]).
    change (Qpower 2 3) with (8 # 1)%Q in P8. lra.
  - split; [lra |]. split; [lra |]. intros _. reflexivity.
Qed.

(** X10. For every attempt from the first on, and a random draw in
    [0, 1), the retry delay is at least 1000ms and at most 5500ms: the
    base of 1000, 2000 and 4000ms for the first three attempts and of
    5000ms from the fourth on, each time exceeded by at most a tenth. *)
Theorem retry_delay_window :
  forall attempt r,
    1 <= attempt -> (0 <= r)%Q -> (r < 1)%Q ->
    let d := getRetryDelay attempt r in
    (1000 <= d)%Q /\ (d <= 5500)%Q
    /\ (attempt = 1 -> (1000 <= d)%Q /\ (d <= 1100)%Q)
    /\ (attempt = 2 -> (2000 <= d)%Q /\ (d <= 2200)%Q)
    /\ (attempt = 3 -> (4000 <= d)%Q /\ (d <= 4400)%Q)
    /\ (4 <= attempt -> (5000 <= d)%Q /\ (d <= 5500)%Q).
Proof.
  intros attempt r Ha R0 R1 d.
  destruct (getRetryDelay_bounds attempt r R0 R1) as [Lo Hi].
  destruct (retry_base_window attempt Ha) as (B1 & B5 & B4).
  fold d in Lo, Hi.
  split; [lra |]. split; [lra |].
  split; [| split; [| split]].
  - intros ->. change (Qmin (1000 * Qpower 2 (1 - 1)) 5000) with (1000 # 1)%Q in Lo, Hi.
    split; lra.
  - intros ->. change (Qmin (1000 * Qpower 2 (2 - 1)) 5000) with (2000 # 1)%Q in Lo, Hi.
    split; lra.
  - intros ->. change (Qmin (1000 * Qpower 2 (3 - 1)) 5000) with (4000 # 1)%Q in Lo, Hi.
    split; lra.
  - intros H4. specialize (B4 H4). split; lra.
Qed.

Lemma fifth_retry_delay_is_capped :
  (1000 <= getRetryDelay 5 (1 # 2))%Q /\ (getRetryDelay 5 (1 # 2) <= 5500)%Q
  /\ (5000 <= getRetryDelay 5 (1 # 2))%Q.
Proof.
  destruct (retry_delay_window 5 (1 # 2)) as (A & B & _ & _ & _ & C).
  - lia.
  - lra.
  - lra.
  - split; [exact A | split; [exact B | apply C; lia]].
Defined.


(** [n] attempts in a row on which nothing matches: each is followed
    by its wait, and the healing log stays as it was. *)
Lemma attemptFind_skip_waits h config sel hint n : forall fuel attempts st,
  (forall j, attempts < j <= attempts + Z.of_nat n ->
             nothingMatches h config sel hint j) ->
  attempts + Z.of_nat n < maxRetries config ->
  exists es,
    attemptFind h config sel hint (n + fuel) attempts st
    = attemptFind h config sel hint fuel
        (attempts + Z.of_nat n) (addEffects st es)
    /\ waits es = retryDelays h (attempts + 1) n.
Proof.
  induction n as [|n IH]; intros fuel attempts st Hno Hlt.
  - exists []. rewrite addEffects_nil. cbn [Z.of_nat Nat.add].
    rewrite Z.add_0_r. split; reflexivity.
  - cbn [Nat.add]. rewrite attemptFind_retry; [| apply Hno; lia | lia].
    destruct (IH fuel (attempts + 1)
                (addEffects st
                   (probingEffects h config sel hint (attempts + 1)
                    ++ [CyWait (getRetryDelay (attempts + 1)
                                  (random h (attempts + 1)))]))) as (es & E & W).
    + intros j Hj. apply Hno. lia.
    + lia.
    + rewrite E, addEffects_app. eexists. split.
      * replace (attempts + 1 + Z.of_nat n) with (attempts + Z.of_nat (S n)) by lia.
        reflexivity.
      * rewrite !waits_app, waits_probingEffects, W. reflexivity.
Qed.



Lemma attemptFind_ending h config sel hint : forall fuel attempts st,
  (0 < fuel)%nat -> 0 <= attempts ->
  maxRetries config - attempts <= Z.of_nat fuel ->
  runEnding h config sel hint st
    (attemptFind h config sel hint fuel attempts st).
Proof.
  induction fuel as [|fuel IH]; intros attempts st Hpos Hatt Hfuel; [lia |].
  destruct (matches (bodyFind h (attempts + 1)) sel) eqn:M.
  { rewrite attemptFind_fast by assumption. left. split; reflexivity. }
  destruct (Z_lt_le_dec (maxRetries config) (attempts + 1)) as [Hover | Hin].
  { rewrite attemptFind_over by assumption. right. right. left.
    exists (attempts + 1). split; reflexivity. }
  destruct (searchStrategies h (attempts + 1)
              (getHealingStrategies h config sel hint))
    as [[strategy s]| |message] eqn:F.
  - rewrite (attemptFind_heal _ _ _ _ _ _ _ strategy s) by assumption.
    destruct (searchStrategies_Hit _ _ _ _ _ F) as (pre & post & i & E & Es & Ms & _).
    right. left. exists (attempts + 1), (priority strategy, i, s).
    cbn [cand_selector snd fst healingLogs].
    split; [reflexivity |]. split; [reflexivity |]. split; [lia |].
    split; [| split; assumption].
    unfold permittedCandidates. rewrite <- getHealingStrategies_permitted, E.
    apply List.in_or_app. right. now left.
  - destruct (Z_lt_le_dec (attempts + 1) (maxRetries config)) as [Hmore | Hlast].
    + rewrite attemptFind_retry; [| split; assumption | assumption].
      specialize (IH (attempts + 1)
                    (addEffects st
                       (probingEffects h config sel hint (attempts + 1)
                        ++ [CyWait (getRetryDelay (attempts + 1)
                                      (random h (attempts + 1)))]))).
      apply IH; lia.
    + rewrite attemptFind_last; [| split; assumption | lia].
      right. right. left. exists (attempts + 1). split; reflexivity.
  - rewrite (attemptFind_raised _ _ _ _ _ _ _ message) by assumption.
    destruct (searchStrategies_Raised _ _ _ _ F) as (pre & c & post & E & Es & _).
    right. right. right. exists c, message.
    split; [reflexivity |]. split; [reflexivity |]. split; [| assumption].
    unfold permittedCandidates. rewrite <- getHealingStrategies_permitted, E.
    apply List.in_or_app. right. now left.
Qed.

Lemma findElement_ending h config sel hint st :
  runEnding h config sel hint st (findElement h config sel hint st).
Proof.
  unfold findElement. destruct (enabled config); cbn [negb].
  - apply attemptFind_ending; lia.
  - left. cy_step. split; reflexivity.
Qed.

(** What a run adds to the healing log, by its ending. *)
Lemma runEnding_added h config sel hint st run :
  runEnding h config sel hint st run ->
  exists added,
    healingLogs (snd run) = healingLogs st ++ added
    /\ (List.length added <= 1)%nat
    /\ Forall (fun l => oldSelector l = sel /\ action l <> locator_updated) added.
Proof.
  intros [[_ L] | [(k & c & _ & L & _) | [(k & _ & L) | (c & m & _ & L & _)]]].
  - exists []. rewrite app_nil_r. repeat split; [assumption | cbn; lia | constructor].
  - exists [foundLog h sel hint k (cand_selector c)].
    repeat split; [assumption | cbn; lia |].
    constructor; [| constructor]. split; [reflexivity | discriminate].
  - exists [failedLog h sel hint k]. repeat split; [assumption | cbn; lia |].
    constructor; [| constructor]. split; [reflexivity | discriminate].
  - exists []. rewrite app_nil_r. repeat split; [assumption | cbn; lia | constructor].
Qed.




(** X14. The body is queried afresh on every attempt: when nothing
    matches on the attempts before [k], every candidate being a
    selector the engine parses and finds no element for, and the
    original selector matches on the body of attempt [k], the resolver
    hands back the original selector after [k - 1] waits and logs
    nothing. *)
Theorem original_selector_found_on_later_attempt :
  forall h config sel hint st k,
    enabled config = true ->
    1 <= k -> k - 1 < maxRetries config ->
    (forall j, 1 <= j < k -> silentAt h config sel hint j) ->
    (0 < bodyFind h k sel)%nat ->
    exists es,
      findElement h config sel hint st
      = (Some (Yield sel),
         {| healingLogs := healingLogs st; effects := effects st ++ es |})
      /\ waits es = retryDelays h 1 (Z.to_nat (k - 1)).
Proof.
  intros h config sel hint st k En Hk Hlt Hsilent M.
  unfold findElement. rewrite En. cbn [negb].
  set (n := Z.to_nat (k - 1)).
  replace (S (Z.to_nat (maxRetries config)))
    with (n + S (Z.to_nat (maxRetries config) - n))%nat by lia.
  destruct (attemptFind_skip_waits h config sel hint n
              (S (Z.to_nat (maxRetries config) - n)) 0 st) as (es & E & W).
  { intros j Hj. apply silentAt_nothingMatches, Hsilent. lia. }
  { lia. }
  exists (es ++ [CyGetBody; BodyFind sel; CyGet sel]).
  rewrite E, attemptFind_fast.
  - rewrite addEffects_app. split; [reflexivity |].
    rewrite waits_app, W. cbn [waits Z.add]. now rewrite app_nil_r.
  - replace (0 + Z.of_nat n + 1) with k by lia.
    unfold matches. now apply Nat.ltb_lt.
Qed.

Lemma button_appears_on_second_attempt :
  exists es,
    findElement (pageFrom 2 [submitBtn]) (configWith true medium 3)
      submitBtn None freshRun
    = (Some (Yield submitBtn), {| healingLogs := []; effects := [] ++ es |})
    /\ waits es = retryDelays (pageFrom 2 [submitBtn]) 1 (Z.to_nat (2 - 1)).
Proof.
  apply (original_selector_found_on_later_attempt
           (pageFrom 2 [submitBtn]) (configWith true medium 3)
           submitBtn None freshRun 2).
  - reflexivity.
  - lia.
  - cbn. lia.
  - intros j Hj. assert (j = 1) as -> by lia.
    apply silentAt_check; vm_compute; reflexivity.
  - vm_compute. lia.
Defined.




(** ** The healing report *)

Lemma countAction_app a l1 l2 :
  HealingReports.countAction a (l1 ++ l2)
  = (HealingReports.countAction a l1 + HealingReports.countAction a l2)%nat.
Proof.
  unfold HealingReports.countAction.
  now rewrite List.filter_app, List.length_app.
Qed.

Lemma resolver_records_partition l :
  Forall resolverRecord l ->
  List.length l
  = (HealingReports.countAction element_found l
     + HealingReports.countAction healing_failed l)%nat.
Proof.
  unfold HealingReports.countAction.
  induction 1 as [|x l Hx Hl IH]; [reflexivity |].
  cbn [List.filter List.length]. unfold resolverRecord in Hx.
  destruct (action x); cbn [HealingReports.action_eqb List.length];
    [congruence | lia | lia].
Qed.

Lemma tally_succ n :
  <[js "unknown" := (default 0%nat (tally n !! js "unknown") + 1)%nat]> (tally n)
  = tally (S n).
Proof.
  destruct n as [|n].
  - change (tally 0) with (∅ : gmap jsstring nat).
    change (tally 1) with ({[ js "unknown" := 1%nat ]} : gmap jsstring nat).
    rewrite lookup_empty. cbn [default Nat.add]. now rewrite insert_empty.
  - change (tally (S n)) with ({[ js "unknown" := S n ]} : gmap jsstring nat).
    change (tally (S (S n)))
      with ({[ js "unknown" := S (S n) ]} : gmap jsstring nat).
    rewrite lookup_singleton_eq. cbn [default].
    rewrite insert_singleton_eq. f_equal. unfold id. lia.
Qed.

Lemma fold_tally l : forall n,
  List.fold_left
    (fun (strategies : gmap jsstring nat) log =>
       if HealingReports.action_eqb (action log) element_found then
         <[js "unknown" := (default 0%nat (strategies !! js "unknown") + 1)%nat]>
           strategies
       else strategies)
    l (tally n)
  = tally (n + HealingReports.countAction element_found l).
Proof.
  unfold HealingReports.countAction.
  induction l as [|x l IH]; intros n; cbn [List.fold_left List.filter].
  - cbn [List.length]. now rewrite Nat.add_0_r.
  - destruct (HealingReports.action_eqb (action x) element_found);
      cbv beta iota.
    + rewrite tally_succ, IH. cbn [List.length]. f_equal. lia.
    + apply IH.
Qed.

Lemma getHealingsByStrategy_tally l :
  HealingReports.getHealingsByStrategy l
  = tally (HealingReports.countAction element_found l).
Proof. exact (fold_tally l 0). Qed.

(** X15. The totals of the healing report add up after any run of the
    resolver: on a log that holds records of the resolver only, the
    total number of healing attempts is the number of finds plus the
    number of failures, before the run and after it; the breakdown by
    strategy has the one key [unknown], with the number of finds, and
    is empty when there is none. *)
Theorem healing_report_totals_add_up :
  forall h config sel hint st isoNow specName,
    Forall resolverRecord (healingLogs st) ->
    let report :=
      snd (HealingReports.generateHealingReport isoNow specName config
             (snd (findElement h config sel hint st))) in
    HealingReports.totalHealingAttempts report
    = (HealingReports.successfulHealings report
       + HealingReports.failedHealings report)%nat
    /\ HealingReports.healingsByStrategy report
       = tally (HealingReports.successfulHealings report)
    /\ (List.length (healingLogs st)
        <= HealingReports.totalHealingAttempts report
        <= List.length (healingLogs st) + 1)%nat.
Proof.
  intros h config sel hint st isoNow specName Hst report.
  unfold report, HealingReports.generateHealingReport.
  cbn [snd HealingReports.totalHealingAttempts HealingReports.successfulHealings
         HealingReports.failedHealings HealingReports.healingsByStrategy].
  destruct (runEnding_added h config sel hint st _
              (findElement_ending h config sel hint st))
    as (added & L & Hlen & Hadded).
  rewrite L. split; [| split].
  - apply resolver_records_partition.
    apply List.Forall_app. split; [assumption |].
    eapply List.Forall_impl; [| exact Hadded]. intros l [_ Hl]. exact Hl.
  - apply getHealingsByStrategy_tally.
  - rewrite List.length_app. lia.
Qed.

Lemma report_after_one_heal :
  let report :=
    snd (HealingReports.generateHealingReport (js "2024-01-01T00:00:00.000Z")
           (js "login.spec.ts") (configWith true medium 3)
           (snd (findElement (pageWith [submitTestId]) (configWith true medium 3)
                   submitBtn None freshRun))) in
  HealingReports.totalHealingAttempts report
  = (HealingReports.successfulHealings report
     + HealingReports.failedHealings report)%nat
  /\ HealingReports.healingsByStrategy report
     = tally (HealingReports.successfulHealings report)
  /\ (List.length (healingLogs freshRun)
      <= HealingReports.totalHealingAttempts report
      <= List.length (healingLogs freshRun) + 1)%nat.
Proof.
  apply (healing_report_totals_add_up
           (pageWith [submitTestId]) (configWith true medium 3)
           submitBtn None freshRun).
  constructor.
Defined.

(** ** The [getWithHealing] command *)



Section Command.
Variables (h : Host) (m : Z) (sel : jsstring).

Lemma tryGet_fast fuel attempts st :
  matches (bodyFind h (attempts + 1)) sel = true ->
  Commands.tryGet h m sel (S fuel) attempts st
  = (Some (Yield sel), addEffects st [CyGetBody; BodyFind sel; CyGet sel]).
Proof.
  intros M. cbn [Commands.tryGet]. cy_step.
  unfold matches in M. rewrite M. cy_step.
  now rewrite !addEffects_app.
Qed.

Lemma tryGet_heal fuel attempts st alt :
  matches (bodyFind h (attempts + 1)) sel = false ->
  attempts + 1 <= m ->
  searchSelectors h (attempts + 1)
    (Commands.generateAlternativeSelectors sel) = Hit alt ->
  Commands.tryGet h m sel (S fuel) attempts st
  = (Some (Yield alt),
     addEffects st
       (commandProbing h sel (attempts + 1)
        ++ [CyLog (js "Auto-healing: Found element with selector: " ++ alt);
            CyTaskUpdateLocator sel alt (specRelative h);
            CyGet alt])).
Proof.
  intros M L F. cbn [Commands.tryGet]. cy_step.
  unfold matches in M. rewrite M.
  apply Z.leb_le in L. rewrite L. cy_step.
  rewrite probeSelectors_run, F. cbn [fst snd]. cy_step.
  rewrite !addEffects_app. unfold commandProbing.
  rewrite <- !app_assoc. reflexivity.
Qed.

(** An alternative the engine cannot parse ends the command with the
    error of the engine. *)
Lemma tryGet_raised fuel attempts st message :
  matches (bodyFind h (attempts + 1)) sel = false ->
  attempts + 1 <= m ->
  searchSelectors h (attempts + 1)
    (Commands.generateAlternativeSelectors sel) = Raised message ->
  Commands.tryGet h m sel (S fuel) attempts st
  = (Some (Throw message), addEffects st (commandProbing h sel (attempts + 1))).
Proof.
  intros M L F. cbn [Commands.tryGet]. cy_step.
  unfold matches in M. rewrite M.
  apply Z.leb_le in L. rewrite L. cy_step.
  rewrite probeSelectors_run, F. cbn [fst snd]. rewrite ret_run.
  rewrite !addEffects_app. unfold commandProbing.
  rewrite <- ?app_assoc. reflexivity.
Qed.

Lemma tryGet_miss fuel attempts st :
  matches (bodyFind h (attempts + 1)) sel = false ->
  attempts + 1 <= m ->
  searchSelectors h (attempts + 1)
    (Commands.generateAlternativeSelectors sel) = Miss ->
  Commands.tryGet h m sel (S fuel) attempts st
  = Commands.tryGet h m sel fuel (attempts + 1)
      (addEffects st (commandProbing h sel (attempts + 1) ++ [CyWait 1000])).
Proof.
  intros M L F. cbn [Commands.tryGet]. cy_step.
  unfold matches in M. rewrite M.
  apply Z.leb_le in L. rewrite L. cy_step.
  rewrite probeSelectors_run, F. cbn [fst snd]. cy_step.
  rewrite !addEffects_app. unfold commandProbing.
  rewrite <- !app_assoc. reflexivity.
Qed.


Lemma tryGet_over fuel attempts st :
  matches (bodyFind h (attempts + 1)) sel = false ->
  m < attempts + 1 ->
  Commands.tryGet h m sel (S fuel) attempts st
  = (Some (Throw (Commands.notFoundMessage sel m)),
     addEffects st [CyGetBody; BodyFind sel]).
Proof.
  intros M L. cbn [Commands.tryGet]. cy_step.
  unfold matches in M. rewrite M.
  replace (attempts + 1 <=? m) with false by (symmetry; apply Z.leb_gt; lia).
  cy_step. now rewrite !addEffects_app.
Qed.

Lemma tryGet_keeps_log : forall fuel attempts st,
  healingLogs (snd (Commands.tryGet h m sel fuel attempts st)) = healingLogs st.
Proof.
  induction fuel as [|fuel IH]; intros attempts st; [reflexivity |].
  destruct (matches (bodyFind h (attempts + 1)) sel) eqn:M.
  { now rewrite tryGet_fast. }
  destruct (Z_lt_le_dec m (attempts + 1)) as [Hover | Hin].
  { now rewrite tryGet_over. }
  destruct (searchSelectors h (attempts + 1)
              (Commands.generateAlternativeSelectors sel)) as [alt| |message] eqn:F.
  - now rewrite (tryGet_heal _ _ _ alt).
  - rewrite tryGet_miss by assumption. now rewrite IH.
  - now rewrite (tryGet_raised _ _ _ message).
Qed.






End Command.

(** X16. The [getWithHealing] command never touches the healing log
    of the [AutoHealing] instance: whatever the configuration, the page
    and the outcome, the log after the command is the log before it. *)
Theorem getWithHealing_keeps_healing_log :
  forall h autoHealingConfig sel st,
    healingLogs (snd (Commands.getWithHealing h autoHealingConfig sel st))
    = healingLogs st.
Proof.
  intros h [config|] sel st; unfold Commands.getWithHealing.
  - destruct (enabled config); cbn [negb].
    + apply tryGet_keeps_log.
    + cy_step. reflexivity.
  - cy_step. reflexivity.
Qed.








(** ** Runs of the visual commands *)

(** X19. The [compareImages] task writes one file at most, the diff
    image: when it reports an error the files are as they were, and
    when it compares, every path but the diff path holds what it held;
    the baseline and the actual image are never rewritten unless the
    diff path is theirs. *)
Theorem compareImages_writes_diff_only :
  forall n config (fs : Visual.FS) baseline actual,
    let run := Visual.compareImages n config fs baseline actual in
    match fst run with
    | Visual.Errored _ => snd run = fs
    | Visual.Compared p count d =>
        d = Some (diffPathOf n config actual)
        /\ p = (count =? 0)
        /\ forall path, path <> diffPathOf n config actual ->
                        snd run !! path = fs !! path
    end.
Proof.
  intros n config fs baseline actual run. unfold run, Visual.compareImages.
  destruct (Visual.readPng n fs baseline) as [e|b]; [reflexivity |].
  destruct (Visual.readPng n fs actual) as [e|a]; [reflexivity |].
  destruct (Visual.pixelmatch n _ _ _ _ _) as [e|[count diffData]];
    [reflexivity |].
  fold (diffPathOf n config actual).
  destruct (Visual.writeFileError n (diffPathOf n config actual)) as [e|];
    [reflexivity |].
  cbn [fst snd].
  split; [reflexivity |]. split; [reflexivity |].
  intros path Hne. now rewrite lookup_insert_ne.
Qed.

Lemma performImageComparison_with_baseline
    n config name baselinePath actualPath options st :
  Visual.baselineExists (Visual.fs st) baselinePath = true ->
  let compared :=
    Visual.compareImages n (Visual.taskConfig n) (Visual.fs st)
      baselinePath actualPath in
  let run :=
    Visual.performImageComparison n config name baselinePath actualPath
      options st in
  fst run = afterComparison n options (fst compared)
  /\ Visual.testResults (snd run) = Visual.testResults st ++ [fst compared]
  /\ Visual.fs (snd run) = snd compared.
Proof.
  intros Hb compared run. destruct (baselineExists_file _ _ Hb) as [file Hf].
  unfold run, Visual.performImageComparison.
  rewrite vbind_run, readFile_run, Hf, Hb. cbn [fst snd negb]. vcy_step.
  fold compared.
  unfold Visual.logComparisonResult, Visual.pushResult, afterComparison,
    Visual.attachDiffToReport.
  destruct (fst compared) as [[|] count [path|]|message];
    cbn [Visual.passed negb andb]; vcy_step;
    destruct (Visual.failOnDifference options) as [[|]|];
    cbn [negb andb]; vcy_step; try (repeat split; reflexivity);
    destruct (truthy path); cbn [andb]; vcy_step;
    try (repeat split; reflexivity);
    destruct (Visual.allure n); cbn [negb]; vcy_step; repeat split; reflexivity.
Qed.

(** X20. When the baseline image is there and the actual image is
    not, the [compareSnapshot] command fails the test with the message
    of the read error, under the heading of a failed visual comparison. *)
Theorem compareSnapshot_fails_on_unreadable_actual :
  forall n config name st b,
    Visual.enabled config = true ->
    let files := Visual.takeScreenshot n (js "actual/" ++ name) (Visual.fs st) in
    files !! snapshotBaseline name = Some (Visual.PngFile b) ->
    files !! snapshotActual name = None ->
    Visual.readFileError n (snapshotActual name) <> [] ->
    fst (Visual.compareSnapshot n (Some config) name st)
    = Visual.Failed
        (Visual.Error (js "Visual comparison failed: "
                       ++ Visual.readFileError n (snapshotActual name))).
Proof.
  intros n config name st b En files Hb Ha Hmsg.
  unfold Visual.compareSnapshot. rewrite En. cbn [negb]. vcy_step.
  rewrite readFile_run. cbn [fst snd Visual.fs addLog].
  fold files (snapshotBaseline name) (snapshotActual name). rewrite Hb.
  unfold Visual.baselineExists. rewrite Hb. cbn [negb]. vcy_step.
  unfold Visual.compareImages, Visual.readPng. rewrite Hb, Ha. cbn [fst snd].
  unfold Visual.onCompareResult. rewrite (truthy_nonempty _ Hmsg). vcy_step.
  reflexivity.
Qed.

Lemma compareSnapshot_without_actual_image :
  fst (Visual.compareSnapshot scenarioNode (Some scenarioVisual) (js "home")
         (freshVisual baselineOnly))
  = Visual.Failed
      (Visual.Error (js "Visual comparison failed: "
                     ++ Visual.readFileError scenarioNode (snapshotActual (js "home")))).
Proof.
  apply (compareSnapshot_fails_on_unreadable_actual
           scenarioNode scenarioVisual (js "home") (freshVisual baselineOnly)
           (flat 0)).
  - reflexivity.
  - vm_compute. reflexivity.
  - vm_compute. reflexivity.
  - vm_compute. discriminate.
Defined.

(** X21. Without a baseline image, no file or an empty one at the
    baseline path, the [compareSnapshot] command compares nothing and
    writes no baseline: the files after the command are the files the
    screenshot left.  With no file at the path the command fails on the
    read of it; with an empty file there it logs that it is creating
    the baseline, creates none, and hands back. *)
Theorem compareSnapshot_without_baseline_writes_none :
  forall n config name st,
    Visual.enabled config = true ->
    let files := Visual.takeScreenshot n (js "actual/" ++ name) (Visual.fs st) in
    Visual.baselineExists files (snapshotBaseline name) = false ->
    Visual.compareSnapshot n (Some config) name st
    = match files !! snapshotBaseline name with
      | None =>
          (Visual.Failed (Visual.FileNotFound (snapshotBaseline name)),
           {| Visual.fs := files;
              Visual.testResults := Visual.testResults st;
              Visual.log := Visual.log st
                ++ [Visual.Screenshot (js "actual/" ++ name);
                    Visual.ReadFile (snapshotBaseline name)] |})
      | Some _ =>
          (Visual.Returned tt,
           {| Visual.fs := files;
              Visual.testResults := Visual.testResults st;
              Visual.log := Visual.log st
                ++ [Visual.Screenshot (js "actual/" ++ name);
                    Visual.ReadFile (snapshotBaseline name);
                    Visual.Log (js "Baseline not found for " ++ name
                                ++ js ", creating baseline...");
                    Visual.TaskLog (js "Creating baseline for " ++ name)] |})
      end.
Proof.
  intros n config name st En files Hb.
  unfold Visual.compareSnapshot. rewrite En. cbn [negb]. vcy_step.
  rewrite readFile_run. cbn [fst snd Visual.fs addLog].
  fold files (snapshotBaseline name). rewrite Hb.
  destruct (files !! snapshotBaseline name) as [file|]; cbn [negb]; vcy_step;
    unfold addLog; cbn [Visual.fs Visual.testResults Visual.log];
    rewrite <- ?app_assoc; reflexivity.
Qed.

Lemma compareSnapshot_first_run_leaves_no_baseline :
  Visual.compareSnapshot scenarioNode (Some scenarioVisual) (js "home")
    (freshVisual actualOnly)
  = (Visual.Failed (Visual.FileNotFound (snapshotBaseline (js "home"))),
     {| Visual.fs := actualOnly;
        Visual.testResults := [];
        Visual.log :=
          [] ++ [Visual.Screenshot (js "actual/" ++ js "home");
                 Visual.ReadFile (snapshotBaseline (js "home"))] |}).
Proof.
  apply (compareSnapshot_without_baseline_writes_none
           scenarioNode scenarioVisual (js "home") (freshVisual actualOnly)).
  - reflexivity.
  - vm_compute. reflexivity.
Defined.

Lemma performImageComparison_records_comparisons_aux
    n config name baselinePath actualPath options st :
  let run :=
    Visual.performImageComparison n config name baselinePath actualPath
      options st in
  let result :=
    fst (Visual.compareImages n (Visual.taskConfig n) (Visual.fs st)
           baselinePath actualPath) in
  if Visual.baselineExists (Visual.fs st) baselinePath then
    Visual.testResults (snd run) = Visual.testResults st ++ [result]
    /\ (fst run = Visual.Returned result
        \/ fst run = Visual.Failed Visual.NotAFunction)
  else
    Visual.testResults (snd run) = Visual.testResults st
    /\ fst run
       = Visual.Failed
           (match Visual.fs st !! baselinePath with
            | None => Visual.FileNotFound baselinePath
            | Some _ => Visual.TaskRejected (js "copyFile")
            end).
Proof.
  intros run result.
  destruct (Visual.baselineExists (Visual.fs st) baselinePath) eqn:Hb.
  - destruct (performImageComparison_with_baseline
                n config name baselinePath actualPath options st Hb)
      as (O & R & _).
    fold run result in O, R. split; [exact R |].
    rewrite O. unfold afterComparison.
    destruct result as [[|] count [path|]|message];
      destruct (Visual.failOnDifference options) as [[|]|]; auto;
      destruct (truthy path && negb (Visual.allure n)); auto.
  - unfold run. destruct (Visual.fs st !! baselinePath) as [file|] eqn:Hf.
    + rewrite (performImageComparison_empty_baseline _ _ _ _ _ _ _ file Hf Hb).
      split; reflexivity.
    + rewrite (performImageComparison_missing_baseline _ _ _ _ _ _ _ Hf).
      split; reflexivity.
Qed.


(** X23. A run of [performComparison] adds at most one result to the
    test results, and a result it hands back without recording is the
    bare passing result, as that of a disabled run is, which takes no
    screenshot, touches no file and does not show in the visual
    report. *)
Theorem performComparison_records_at_most_one_result :
  forall n config name options st,
    let run := VisualRuns.performComparison n config name options st in
    (exists added,
       Visual.testResults (snd run) = Visual.testResults st ++ added
       /\ (List.length added <= 1)%nat)
    /\ (forall r, fst run = Visual.Returned r ->
          Visual.testResults (snd run) = Visual.testResults st ++ [r]
          \/ (Visual.testResults (snd run) = Visual.testResults st
              /\ r = syntheticPass))
    /\ (Visual.enabled config = false ->
          run = (Visual.Returned syntheticPass,
                 addLog st [Visual.AddTestLog (js "Visual testing is disabled")
                              (js "warn")])).
Proof.
  intros n config name options st run. unfold run, VisualRuns.performComparison.
  destruct (Visual.enabled config); cbn [negb].
  - vcy_step.
    set (st1 := {| Visual.fs := Visual.takeScreenshot n name (Visual.fs st);
                   Visual.testResults := Visual.testResults st;
                   Visual.log := _ |}).
    pose proof (performImageComparison_records_comparisons_aux
                  n config name
                  (Visual.baselineDir config ++ js "/" ++ name ++ js ".png")
                  (Visual.actualDir config ++ js "/" ++ name ++ js ".png")
                  options st1) as H.
    cbv zeta in H. change (Visual.testResults st1) with (Visual.testResults st) in H.
    destruct (Visual.baselineExists (Visual.fs st1) _).
    + destruct H as [R O]. split; [| split; [| discriminate]].
      * eexists. split; [exact R | cbn; lia].
      * intros r Hr. left. rewrite R. destruct O as [O | O]; rewrite O in Hr.
        -- now injection Hr as <-.
        -- discriminate Hr.
    + destruct H as [R O]. split; [| split; [| discriminate]].
      * exists []. rewrite app_nil_r. split; [exact R | cbn; lia].
      * intros r Hr. rewrite O in Hr. discriminate Hr.
  - vcy_step. split; [| split].
    + exists []. rewrite app_nil_r. split; [reflexivity | cbn; lia].
    + intros r [= <-]. right. split; reflexivity.
    + reflexivity.
Qed.



Lemma filter_partition_length {A} (p : A -> bool) l :
  (List.length (List.filter p l)
   + List.length (List.filter (fun x => negb (p x)) l))%nat
  = List.length l.
Proof.
  induction l as [|x l IH]; [reflexivity |].
  cbn [List.filter]. destruct (p x); cbn [negb List.length]; lia.
Qed.

(** X25. The visual report counts every recorded comparison once, as
    passed or as failed, a task error counting as failed; writing it
    leaves the test results as they are and puts the encoded report at
    [reports/visual-testing-<ms>.json], no other file being touched. *)
Theorem visual_report_totals_add_up :
  forall stringify isoNow specName nowMs config st,
    let run :=
      VisualRuns.generateVisualReport stringify isoNow specName nowMs config st in
    let report := fst run in
    let reportPath := js "reports/visual-testing-" ++ of_Z nowMs ++ js ".json" in
    (VisualRuns.passedCount report + VisualRuns.failedCount report)%nat
    = VisualRuns.totalComparisons report
    /\ VisualRuns.totalComparisons report = List.length (Visual.testResults st)
    /\ (List.length (List.filter
                       (fun r => match r with Visual.Errored _ => true | _ => false end)
                       (Visual.testResults st))
        <= VisualRuns.failedCount report)%nat
    /\ Visual.testResults (snd run) = Visual.testResults st
    /\ Visual.fs (snd run) !! reportPath
       = Some (Visual.OtherFile (stringify report))
    /\ forall path, path <> reportPath ->
                    Visual.fs (snd run) !! path = Visual.fs st !! path.
Proof.
  intros stringify isoNow specName nowMs config st run report reportPath.
  unfold report, run, VisualRuns.generateVisualReport. vcy_step.
  cbn [VisualRuns.passedCount VisualRuns.failedCount VisualRuns.totalComparisons].
  fold reportPath.
  split; [apply filter_partition_length |]. split; [reflexivity |].
  split; [| split; [reflexivity | split]].
  - induction (Visual.testResults st) as [|r l IH]; [cbn; lia |].
    cbn [List.filter]. destruct r as [p c d|m]; cbn [Visual.passed negb].
    + destruct p; cbn [negb List.length]; lia.
    + cbn [List.length]. lia.
  - apply lookup_insert_eq.
  - intros path Hne. now apply lookup_insert_ne.
Qed.
